(** * The [Runner] console reporter of Intern

    A shallow embedding of [lib/reporters/Runner.ts] (the reporter that
    listens to the executor's life-cycle events and renders them on a
    terminal through [charm]) together with the properties that its
    specification states about the session/coverage aggregation.

    Conventions of the embedding:
    - a JavaScript number holding a count, a port or a duration in
      milliseconds is a [Z];
    - an optional property ([sessionId?], [error?], [coverage?]) is an
      [option]; JavaScript truthiness is written out ([truthy_string],
      [truthy_number]);
    - the [sessions] and [_deprecationMessages] objects, used as maps from
      strings, are [gmap string _], holding the entries that the handlers
      assign; the prototype chain of the plain object is not part of it, so
      that a property which rests on a key being absent, or on the
      properties that the object owns, is stated for keys that the chain
      does not answer ([ordinary_key]) and for keys other than
      ["__proto__"];
    - a handler is a computation in the monad [M]: it reads and updates the
      reporter's fields, emits effects (calls on the [charm] instance, the
      creation of a coverage report, [console.log]) and completes normally
      or by a thrown exception;
    - a [Suite] stored in a session is the content of the referenced
      object as the handler reads it. *)

From Stdlib Require Import ZArith String Ascii DecimalString List Bool Lia.
From stdpp Require Import gmap strings list fin_maps.

Open Scope Z_scope.

(** ** External collaborators

    The error formatter of the [Reporter] base class, the coverage map of
    [istanbul-lib-coverage] and the rendering of the two floating-point
    quotients are not part of the reporter; they are taken as parameters. *)

Class Collaborators := {
  (** JavaScript [Error] objects. *)
  Error : Type;
  (** [Reporter.formatError]. *)
  formatError : Error -> string;
  (** [CoverageMap] of istanbul-lib-coverage. *)
  CoverageMap : Type;
  createCoverageMap : CoverageMap;
  (** [receiver.merge(other)]: the receiver's new content. *)
  merge : CoverageMap -> CoverageMap -> CoverageMap;
  files : CoverageMap -> list string;
  (** The string JavaScript gives for [timeElapsed / 1000]. *)
  seconds : Z -> string;
  (** The string of [(received / total * 100).toFixed(3)]. *)
  percentFixed3 : Z -> Z -> string
}.

(** ** JavaScript strings, numbers and truthiness *)

Definition LF : string := String (ascii_of_nat 10) "".
Definition CR : string := String (ascii_of_nat 13) "".
Definition ESC : string := String (ascii_of_nat 27) "".

(** [String(n)] for an integral number. *)
Definition string_of_number (n : Z) : string :=
  NilZero.string_of_int (Z.to_int n).
Arguments string_of_number : simpl never.

(** [String(s)] for an optional string, as in ['x' + s] and [`${s}`]. *)
Definition string_of_optional (s : option string) : string :=
  match s with
  | Some s => s
  | None => "undefined"
  end.

Definition truthy_string (s : option string) : bool :=
  match s with
  | Some s => negb (String.eqb s "")
  | None => false
  end.

Definition truthy_number (n : Z) : bool := negb (n =? 0).

Definition truthy_object {A} (o : option A) : bool :=
  match o with
  | Some _ => true
  | None => false
  end.

(** [s || d] on strings. *)
Definition or_string (s : option string) (d : string) : string :=
  match s with
  | Some s => if String.eqb s "" then d else s
  | None => d
  end.

(** *** Plain objects used as maps

    [this.sessions] is a plain object, so a property that it does not own
    is looked up in its prototype chain, and the key ["__proto__"] names an
    accessor: assigning an object to it replaces the prototype and creates
    no property. The names below are those that can be found in the chain
    of [this.sessions] in a run of the reporter: the members of
    [Object.prototype], and [suite] and [coverage], which a session object
    installed as prototype, or a coverage event for the key ["__proto__"],
    makes visible there. *)

Definition Object_prototype_members : list string :=
  ["__proto__"; "constructor"; "hasOwnProperty"; "isPrototypeOf";
   "propertyIsEnumerable"; "toLocaleString"; "toString"; "valueOf";
   "__defineGetter__"; "__defineSetter__"; "__lookupGetter__";
   "__lookupSetter__"].

Definition prototype_chain_names : list string :=
  Object_prototype_members ++ ["suite"; "coverage"].

(** A key that the prototype chain never answers: for such a key the
    lookup in the finite map of the entries is the lookup of the
    property. *)
Definition ordinary_key (key : string) : bool :=
  negb (existsb (String.eqb key) prototype_chain_names).

(** [s.split(sep)] for a one-character separator. *)
Fixpoint split (sep : ascii) (s : string) : list string :=
  match s with
  | EmptyString => [EmptyString]
  | String c s' =>
      if Ascii.eqb c sep then EmptyString :: split sep s'
      else match split sep s' with
           | line :: lines => String c line :: lines
           | [] => [String c EmptyString]
           end
  end.

(** *** [util.format]

    The part of Node's [util.format] that the reporter uses: [%s] and [%d]
    consume one argument each, [%%] is a percent sign, a placeholder with
    no argument left is copied, and arguments that are left over are
    appended, separated by spaces. *)

Inductive FormatArg :=
| ArgS (s : string)
| ArgD (n : Z).

Definition string_of_arg (a : FormatArg) : string :=
  match a with
  | ArgS s => s
  | ArgD n => string_of_number n
  end.

Fixpoint format_rest (args : list FormatArg) : string :=
  match args with
  | [] => ""
  | a :: args => " " +:+ string_of_arg a +:+ format_rest args
  end.

Fixpoint format (template : string) (args : list FormatArg) : string :=
  match template with
  | EmptyString => format_rest args
  | String c rest =>
      if Ascii.eqb c "%" then
        match rest with
        | String d rest' =>
            if Ascii.eqb d "s" || Ascii.eqb d "d" then
              match args with
              | a :: args' => string_of_arg a +:+ format rest' args'
              | [] => String c (String d (format rest' []))
              end
            else if Ascii.eqb d "%" then String "%" (format rest' args)
            else String c (format rest args)
        | EmptyString => String c (format rest args)
        end
      else String c (format rest args)
  end.

(** ** The executor's objects *)

(** A [Test] as the reporter reads it. *)
Module Test.
Section Fields.
Context `{Collaborators}.

Record t := mk {
  id : string;
  timeElapsed : Z;
  error : option Error;
  (** The reason for skipping, when the test was skipped. *)
  skipped : option string
}.

End Fields.
End Test.

(** A [Suite] as the reporter reads it. The result tree is made of suites,
    which have a [tests] array, and of tests, which have none. *)
Module Suite.
Section Fields.
Context `{Collaborators}.

Inductive node :=
| TestNode (test : Test.t)
| SuiteNode (suite : t)
with t :=
| mk (id name : string) (sessionId : option string) (hasParent : bool)
     (error : option Error)
     (numTests numFailedTests numSkippedTests : Z)
     (tests : list node).

Definition id (s : t) : string :=
  let 'mk x _ _ _ _ _ _ _ _ := s in x.
Definition name (s : t) : string :=
  let 'mk _ x _ _ _ _ _ _ _ := s in x.
Definition sessionId (s : t) : option string :=
  let 'mk _ _ x _ _ _ _ _ _ := s in x.
Definition hasParent (s : t) : bool :=
  let 'mk _ _ _ x _ _ _ _ _ := s in x.
Definition error (s : t) : option Error :=
  let 'mk _ _ _ _ x _ _ _ _ := s in x.
Definition numTests (s : t) : Z :=
  let 'mk _ _ _ _ _ x _ _ _ := s in x.
Definition numFailedTests (s : t) : Z :=
  let 'mk _ _ _ _ _ _ x _ _ := s in x.
Definition numSkippedTests (s : t) : Z :=
  let 'mk _ _ _ _ _ _ _ x _ := s in x.
Definition tests (s : t) : list node :=
  let 'mk _ _ _ _ _ _ _ _ x := s in x.

End Fields.
End Suite.

(** The messages of the [coverage], [deprecated] and tunnel events, and
    the server of [serverStart]. *)
Module CoverageMessage.
Section Fields.
Context `{Collaborators}.

Record t := mk {
  sessionId : option string;
  coverage : CoverageMap
}.

End Fields.
End CoverageMessage.

Module DeprecationMessage.

Record t := mk {
  original : string;
  replacement : option string;
  message : option string
}.

End DeprecationMessage.

Module TunnelMessage.

Record Progress := {
  received : Z;
  total : Z
}.

Record t := mk {
  progress : option Progress;
  status : option string
}.

End TunnelMessage.

Module Server.

Record t := mk {
  port : Z;
  socketPort : option Z
}.

End Server.

(** An entry of the [sessions] object. *)
Module Session.
Section Fields.
Context `{Collaborators}.

Record t := mk {
  coverage : option CoverageMap;
  suite : Suite.t
}.

End Fields.
End Session.

(** The local variables of [runEnd]. *)
Module Totals.
Section Fields.
Context `{Collaborators}.

Record t := mk {
  map : CoverageMap;
  numTests : Z;
  numFailedTests : Z;
  numSkippedTests : Z
}.

End Fields.
End Totals.

(** The value of the inner function [hasError] of [suiteEnd], which is
    declared to return [any]: an error object or a boolean. *)
Section Values.
Context `{Collaborators}.

Inductive Value :=
| VError (e : Error)
| VBoolean (b : bool).

Definition truthy (v : Value) : bool :=
  match v with
  | VError _ => true
  | VBoolean b => b
  end.

(** [v > 0]: [true] is the number 1, and an error object converts to
    [NaN]. *)
Definition greater_than_zero (v : Value) : bool :=
  match v with
  | VError _ => false
  | VBoolean b => b
  end.

(** [a || b] on values. *)
Definition or_value (a : option Error) (b : Value) : Value :=
  match a with
  | Some e => VError e
  | None => b
  end.

End Values.

(** ** The reporter's state, its effects and the handler monad *)

Inductive Exception :=
| TypeError (what : string).

(** How a handler ends. *)
Inductive Completion (A : Type) :=
| Normal (a : A)
| Throw (e : Exception).
Arguments Normal {A} a.
Arguments Throw {A} e.

Section Reporter.
Context `{Collaborators}.

(** The fields of a [Runner] instance. *)
Record Runner := {
  sessions : gmap string Session.t;
  hasErrors : bool;
  hidePassed : bool;
  hideSkipped : bool;
  serveOnly : bool;
  _deprecationMessages : gmap string bool
}.

Inductive Color := red | green | yellow | magenta.
Inductive Attribute := reset | bright.

(** What a handler does to the outside: a call on [this.charm], a report
    produced by [createCoverageReport(this.reportType, map)], or a line
    given to [console.log]. *)
Inductive Effect :=
| Foreground (c : Color)
| Display (a : Attribute)
| Write (s : string)
| CoverageReport (map : CoverageMap)
| ConsoleLog (line : string).


Record Result (A : Type) := {
  completion : Completion A;
  final : Runner;
  effects : list Effect
}.
Arguments completion {A} r.
Arguments final {A} r.
Arguments effects {A} r.

Definition M (A : Type) : Type := Runner -> Result A.

Definition ret {A} (a : A) : M A :=
  fun r => {| completion := Normal a; final := r; effects := [] |}.

Definition bind {A B} (m : M A) (k : A -> M B) : M B :=
  fun r =>
    let x := m r in
    match completion x with
    | Normal a =>
        let y := k a (final x) in
        {| completion := completion y; final := final y;
           effects := effects x ++ effects y |}
    | Throw e =>
        {| completion := Throw e; final := final x; effects := effects x |}
    end.

Definition throw {A} (e : Exception) : M A :=
  fun r => {| completion := Throw e; final := r; effects := [] |}.

Definition this : M Runner :=
  fun r => {| completion := Normal r; final := r; effects := [] |}.

Definition assign (f : Runner -> Runner) : M unit :=
  fun r => {| completion := Normal tt; final := f r; effects := [] |}.

Definition emit (e : Effect) : M unit :=
  fun r => {| completion := Normal tt; final := r; effects := [e] |}.

Definition skip : M unit := ret tt.

End Reporter.

Arguments completion {_ A} r.
Arguments final {_ A} r.
Arguments effects {_ A} r.

Declare Scope js_scope.
Delimit Scope js_scope with js.
Notation "x <- m ;; k" := (bind m (fun x => k))
  (at level 100, m at next level, right associativity) : js_scope.
Notation "m ;; k" := (bind m (fun _ => k))
  (at level 100, right associativity) : js_scope.


(** ** The handlers of [Runner] *)

Section Assignments.
Context `{Collaborators}.

Definition set_sessions (f : gmap string Session.t -> gmap string Session.t)
  (r : Runner) : Runner :=
  {| sessions := f (sessions r);
     hasErrors := hasErrors r;
     hidePassed := hidePassed r;
     hideSkipped := hideSkipped r;
     serveOnly := serveOnly r;
     _deprecationMessages := _deprecationMessages r |}.

Definition set_hasErrors (b : bool) (r : Runner) : Runner :=
  {| sessions := sessions r;
     hasErrors := b;
     hidePassed := hidePassed r;
     hideSkipped := hideSkipped r;
     serveOnly := serveOnly r;
     _deprecationMessages := _deprecationMessages r |}.

Definition set_deprecationMessages
  (f : gmap string bool -> gmap string bool) (r : Runner) : Runner :=
  {| sessions := sessions r;
     hasErrors := hasErrors r;
     hidePassed := hidePassed r;
     hideSkipped := hideSkipped r;
     serveOnly := serveOnly r;
     _deprecationMessages := f (_deprecationMessages r) |}.

(** [list.forEach(f)]. *)
Fixpoint forEach {A} (l : list A) (f : A -> M unit) : M unit :=
  match l with
  | [] => skip
  | x :: l => (f x ;; forEach l f)%js
  end.

End Assignments.

Module Runner.
Section Handlers.
Context `{Collaborators}.
Open Scope js_scope.

(** [constructor(executor, config)]: [serveOnly] is read from the
    executor's configuration; [hidePassed] and [hideSkipped] are options
    that the [Reporter] base class copies from [config]. *)
Definition constructor (serveOnly' hidePassed' hideSkipped' : bool)
  : Result unit :=
  {| completion := Normal tt;
     final := {| sessions := ∅;
                 hasErrors := false;
                 hidePassed := hidePassed';
                 hideSkipped := hideSkipped';
                 serveOnly := serveOnly';
                 _deprecationMessages := ∅ |};
     effects := [Display reset] |}.

Definition coverage (message : CoverageMessage.t) : M unit :=
  r <- this ;;
  let key := or_string (CoverageMessage.sessionId message) "" in
  match sessions r !! key with
  | None =>
      (* [session] is [undefined]: reading [session.coverage] throws *)
      throw (TypeError "Cannot read property 'coverage' of undefined")
  | Some session =>
      let map :=
        match Session.coverage session with
        | Some map => map
        | None => createCoverageMap
        end in
      assign (set_sessions
                <[key := {| Session.coverage :=
                              Some (merge map (CoverageMessage.coverage message));
                            Session.suite := Session.suite session |}]>)
  end.

Definition deprecation_key (message : DeprecationMessage.t) : string :=
  DeprecationMessage.original message
    +:+ "|" +:+ string_of_optional (DeprecationMessage.replacement message)
    +:+ "|" +:+ string_of_optional (DeprecationMessage.message message).

Definition seen (messages : gmap string bool) (key : string) : bool :=
  match messages !! key with
  | Some b => b
  | None => false
  end.

Definition deprecated (message : DeprecationMessage.t) : M unit :=
  r <- this ;;
  (* Keep track of deprecation messages we've seen before *)
  let key := deprecation_key message in
  if seen (_deprecationMessages r) key then skip
  else
    assign (set_deprecationMessages <[key := true]>) ;;
    emit (Foreground yellow) ;;
    emit (Write ("⚠︎ " +:+ DeprecationMessage.original message
                   +:+ " is deprecated. ")) ;;
    (if truthy_string (DeprecationMessage.replacement message) then
       emit (Write ("Use "
                      +:+ string_of_optional (DeprecationMessage.replacement message)
                      +:+ " instead."))
     else
       emit (Write ("Please open a ticket at https://github.com/theintern/intern/issues if you still "
                      +:+ "require access to this function."))) ;;
    (if truthy_string (DeprecationMessage.message message) then
       emit (Write (" " +:+ string_of_optional (DeprecationMessage.message message)))
     else skip) ;;
    emit (Write LF) ;;
    emit (Display reset).

Definition error (error : Error) : M unit :=
  emit (Foreground red) ;;
  emit (Write ("(ノಠ益ಠ)ノ彡┻━┻" +:+ LF)) ;;
  emit (Write (formatError error)) ;;
  emit (Display reset) ;;
  emit (Write (LF +:+ LF)) ;;
  assign (set_hasErrors true).

Definition log (message : string) : M unit :=
  forEach (split "010" message)
    (fun line => emit (ConsoleLog ("DEBUG: " +:+ line))).

(** The body of the [forEach] of [runEnd], for one session. *)
Definition accumulate (acc : Totals.t) (session : Session.t) : Totals.t :=
  {| Totals.map :=
       match Session.coverage session with
       | Some coverage => merge (Totals.map acc) coverage
       | None => Totals.map acc
       end;
     Totals.numTests :=
       Totals.numTests acc + Suite.numTests (Session.suite session);
     Totals.numFailedTests :=
       Totals.numFailedTests acc + Suite.numFailedTests (Session.suite session);
     Totals.numSkippedTests :=
       Totals.numSkippedTests acc + Suite.numSkippedTests (Session.suite session) |}.

(** The locals of [runEnd] after its loop over [Object.keys(this.sessions)],
    each key being looked up in [this.sessions]. The entries come in the
    order of the finite map, not in JavaScript's property order: the three
    counters do not depend on it, the merged coverage map does when [merge]
    is not commutative. *)
Definition aggregate (sessions : gmap string Session.t) : Totals.t :=
  foldl (fun acc entry => accumulate acc (snd entry))
    {| Totals.map := createCoverageMap;
       Totals.numTests := 0;
       Totals.numFailedTests := 0;
       Totals.numSkippedTests := 0 |}
    (map_to_list sessions).

Definition total_message (numSkippedTests numFailedTests : Z)
  (hasErrors : bool) : string :=
  let message := "TOTAL: tested %d platforms, %d/%d tests failed" in
  let message :=
    if truthy_number numSkippedTests then
      message +:+ " (" +:+ string_of_number numSkippedTests +:+ " skipped)"
    else message in
  if hasErrors && negb (truthy_number numFailedTests) then
    message +:+ "; fatal error occurred"
  else message.

Definition runEnd : M unit :=
  r <- this ;;
  let numEnvironments := Z.of_nat (size (sessions r)) in
  if 1 <? numEnvironments then
    let totals := aggregate (sessions r) in
    let numTests := Totals.numTests totals in
    let numFailedTests := Totals.numFailedTests totals in
    let numSkippedTests := Totals.numSkippedTests totals in
    (if (0 <? Z.of_nat (length (files (Totals.map totals)))) then
       emit (Write LF) ;;
       emit (Display bright) ;;
       emit (Write ("Total coverage" +:+ LF)) ;;
       emit (Display reset) ;;
       emit (CoverageReport (Totals.map totals))
     else skip) ;;
    let message := total_message numSkippedTests numFailedTests (hasErrors r) in
    emit (Display bright) ;;
    emit (Foreground (if (0 <? numFailedTests) || hasErrors r
                      then red else green)) ;;
    emit (Write (format message [ArgD numEnvironments;
                                 ArgD numFailedTests;
                                 ArgD numTests])) ;;
    emit (Display reset) ;;
    emit (Write LF)
  else skip.

Definition serverStart (server : Server.t) : M unit :=
  let message :=
    "Listening on localhost:" +:+ string_of_number (Server.port server) in
  let message :=
    match Server.socketPort server with
    | Some socketPort =>
        if truthy_number socketPort then
          message +:+ " (ws " +:+ string_of_number socketPort +:+ ")"
        else message
    | None => message
    end in
  emit (Write (message +:+ LF)).

(** The inner function of [suiteEnd]:
    [suite.tests ? (suite.error || suite.tests.some(hasError)) : false]. *)
Fixpoint hasError (suite : Suite.node) : Value :=
  match suite with
  | Suite.TestNode _ => VBoolean false
  | Suite.SuiteNode suite =>
      or_value (Suite.error suite)
        (VBoolean (existsb (fun child => truthy (hasError child))
                     (Suite.tests suite)))
  end.

Definition suite_summary (suite : Suite.t) (hasError : Value) : string :=
  let name := Suite.name suite in
  let numFailedTests := Suite.numFailedTests suite in
  let numTests := Suite.numTests suite in
  let numSkippedTests := Suite.numSkippedTests suite in
  let summary :=
    format "%s: %d/%d tests failed"
      [ArgS name; ArgD numFailedTests; ArgD numTests] in
  let summary :=
    if truthy_number numSkippedTests then
      summary +:+ " (" +:+ string_of_number numSkippedTests +:+ " skipped)"
    else summary in
  if truthy hasError then summary +:+ "; fatal error occurred" else summary.

Definition suiteEnd (suite : Suite.t) : M unit :=
  match Suite.error suite with
  | Some error =>
      emit (Foreground red) ;;
      emit (Write ("Suite " +:+ Suite.id suite +:+ " FAILED" +:+ LF)) ;;
      emit (Write (formatError error)) ;;
      emit (Display reset) ;;
      emit (Write LF) ;;
      assign (set_hasErrors true)
  | None =>
      if negb (Suite.hasParent suite) then
        r <- this ;;
        match sessions r !! or_string (Suite.sessionId suite) "" with
        | None =>
            if negb (serveOnly r) then
              emit (Display bright) ;;
              emit (Foreground yellow) ;;
              emit (Write ("BUG: suiteEnd was received for invalid session "
                             +:+ string_of_optional (Suite.sessionId suite))) ;;
              emit (Display reset) ;;
              emit (Write LF)
            else skip
        | Some session =>
            match Session.coverage session with
            | Some coverage =>
                emit (Write LF) ;;
                emit (CoverageReport coverage)
            | None =>
                emit (Write ("No unit test coverage for " +:+ Suite.name suite)) ;;
                emit (Display reset) ;;
                emit (Write LF)
            end ;;
            let hasError := hasError (Suite.SuiteNode suite) in
            let numFailedTests := Suite.numFailedTests suite in
            let summary := suite_summary suite hasError in
            emit (Display bright) ;;
            emit (Foreground
                    (if truthy_number numFailedTests || greater_than_zero hasError
                     then red else green)) ;;
            emit (Write summary) ;;
            emit (Display reset) ;;
            emit (Write LF)
        end
      else skip
  end.

Definition suiteStart (suite : Suite.t) : M unit :=
  if negb (Suite.hasParent suite) then
    assign (set_sessions
              <[or_string (Suite.sessionId suite) "" :=
                  {| Session.coverage := None; Session.suite := suite |}]>) ;;
    if truthy_string (Suite.sessionId suite) then
      emit (Write LF) ;;
      emit (Write ("‣ Created remote session " +:+ Suite.name suite +:+ " ("
                     +:+ string_of_optional (Suite.sessionId suite) +:+ ")"
                     +:+ LF))
    else skip
  else skip.

Definition testEnd (test : Test.t) : M unit :=
  r <- this ;;
  match Test.error test with
  | Some error =>
      emit (Foreground red) ;;
      emit (Write ("× " +:+ Test.id test)) ;;
      emit (Write (" (" +:+ seconds (Test.timeElapsed test) +:+ "s)")) ;;
      emit (Write LF) ;;
      emit (Display reset) ;;
      emit (Foreground red) ;;
      emit (Write (formatError error)) ;;
      emit (Display reset) ;;
      emit (Write LF)
  | None =>
      if truthy_string (Test.skipped test) then
        if negb (hideSkipped r) then
          emit (Foreground magenta) ;;
          emit (Write ("~ " +:+ Test.id test)) ;;
          emit (Display reset) ;;
          emit (Write (" (" +:+ or_string (Test.skipped test) "skipped" +:+ ")")) ;;
          emit (Display reset) ;;
          emit (Write LF)
        else skip
      else
        if negb (hidePassed r) then
          emit (Foreground green) ;;
          emit (Write ("✓ " +:+ Test.id test)) ;;
          emit (Display reset) ;;
          emit (Write (" (" +:+ seconds (Test.timeElapsed test) +:+ "s)")) ;;
          emit (Display reset) ;;
          emit (Write LF)
        else skip
  end.

Definition tunnelDownloadProgress (message : TunnelMessage.t) : M unit :=
  match TunnelMessage.progress message with
  | Some progress =>
      emit (Write ("Tunnel download: "
                     +:+ percentFixed3 (TunnelMessage.received progress)
                                       (TunnelMessage.total progress)
                     +:+ "%" +:+ CR))
  | None =>
      (* [message.progress!] is [undefined]: reading [received] throws *)
      throw (TypeError "Cannot read property 'received' of undefined")
  end.

Definition tunnelStart : M unit :=
  emit (Write ("Tunnel started" +:+ LF)).

Definition tunnelStatus (message : TunnelMessage.t) : M unit :=
  emit (Write (string_of_optional (TunnelMessage.status message)
                 +:+ ESC +:+ "[K" +:+ CR)).

(** *** Events

    The handlers are registered with [@eventHandler()] under their own
    names; the executor delivers one event at a time. *)

Inductive Event :=
| Coverage (message : CoverageMessage.t)
| Deprecated (message : DeprecationMessage.t)
| ErrorEvent (error : Error)
| Log (message : string)
| RunEnd
| ServerStart (server : Server.t)
| SuiteEnd (suite : Suite.t)
| SuiteStart (suite : Suite.t)
| TestEnd (test : Test.t)
| TunnelDownloadProgress (message : TunnelMessage.t)
| TunnelStart
| TunnelStatus (message : TunnelMessage.t).

Definition handle (event : Event) : M unit :=
  match event with
  | Coverage message => coverage message
  | Deprecated message => deprecated message
  | ErrorEvent e => error e
  | Log message => log message
  | RunEnd => runEnd
  | ServerStart server => serverStart server
  | SuiteEnd suite => suiteEnd suite
  | SuiteStart suite => suiteStart suite
  | TestEnd test => testEnd test
  | TunnelDownloadProgress message => tunnelDownloadProgress message
  | TunnelStart => tunnelStart
  | TunnelStatus message => tunnelStatus message
  end.

(** The reporter after a sequence of events, each delivered to the state
    that the previous one left, and everything emitted on the way. *)
Fixpoint deliver (events : list Event) (r : Runner) : Runner * list Effect :=
  match events with
  | [] => (r, [])
  | event :: events =>
      let x := handle event r in
      let (r', rest) := deliver events (final x) in
      (r', effects x ++ rest)
  end.

End Handlers.
End Runner.

(** ** The earlier reporter

    The repository also holds the earlier [Runner] reporter, written against
    istanbul's [Collector]. Its [coverage], [runEnd] and [suiteStart] are
    embedded here for comparison with the handlers above. A [Collector] is
    taken to be a coverage map: [new Collector()] is [createCoverageMap],
    [collector.add(c)] is [merge] and [getFinalCoverage()] is the map
    itself. *)

Module Legacy.

(** The [mode] that the reporter imports from [main]. *)
Inductive Mode := client | runner.

Section Handlers.
Context `{Collaborators}.

Record Runner := {
  sessions : gmap string Session.t;
  hasErrors : bool;
  proxyOnly : bool
}.

Inductive Effect :=
| Background (c : Color)
| Display (a : Attribute)
| Write (s : string)
| DetailedReport (collector : CoverageMap)
| SummaryReport (collector : CoverageMap).

Record Result := {
  completion : Completion unit;
  final : Runner;
  effects : list Effect
}.

Definition is_client (mode : Mode) : bool :=
  match mode with
  | client => true
  | runner => false
  end.

Definition coverage (mode : Mode) (sessionId : option string)
  (coverage : CoverageMap) (r : Runner) : Result :=
  (* coverage will be called for the runner host, which has no session ID
     -- ignore that *)
  if is_client mode || truthy_string sessionId then
    let key := or_string sessionId "" in
    match sessions r !! key with
    | None =>
        {| completion :=
             Throw (TypeError "Cannot read property 'coverage' of undefined");
           final := r;
           effects := [] |}
    | Some session =>
        let collector :=
          match Session.coverage session with
          | Some collector => collector
          | None => createCoverageMap
          end in
        {| completion := Normal tt;
           final := {| sessions :=
                         <[key := {| Session.coverage :=
                                       Some (merge collector coverage);
                                     Session.suite := Session.suite session |}]>
                           (sessions r);
                       hasErrors := hasErrors r;
                       proxyOnly := proxyOnly r |};
           effects := [] |}
    end
  else {| completion := Normal tt; final := r; effects := [] |}.

(** The loop of this [runEnd] has the body of the loop above and counts the
    sessions as it goes. *)
Definition runEnd (r : Runner) : Result :=
  let totals := Runner.aggregate (sessions r) in
  let numEnvironments := Z.of_nat (size (sessions r)) in
  let numTests := Totals.numTests totals in
  let numFailedTests := Totals.numFailedTests totals in
  let numSkippedTests := Totals.numSkippedTests totals in
  let message := Runner.total_message numSkippedTests numFailedTests (hasErrors r) in
  {| completion := Normal tt;
     final := r;
     effects :=
       (* add a newline between test results and coverage results *)
       [Write LF] ++
       (if 0 <? Z.of_nat (length (files (Totals.map totals)))
        then [DetailedReport (Totals.map totals)] else []) ++
       [Display bright;
        Background (if (0 <? numFailedTests) || hasErrors r then red else green);
        Write (format message [ArgD numEnvironments;
                               ArgD numFailedTests;
                               ArgD numTests]);
        Display reset;
        Write LF] |}.

Definition suiteStart (suite : Suite.t) (r : Runner) : Result :=
  if negb (Suite.hasParent suite) then
    {| completion := Normal tt;
       final := {| sessions :=
                     <[or_string (Suite.sessionId suite) "" :=
                         {| Session.coverage := None; Session.suite := suite |}]>
                       (sessions r);
                   hasErrors := hasErrors r;
                   proxyOnly := proxyOnly r |};
       effects :=
         if truthy_string (Suite.sessionId suite) then
           [Write ("‣ Created session " +:+ Suite.name suite +:+ " ("
                     +:+ string_of_optional (Suite.sessionId suite) +:+ ")"
                     +:+ LF)]
         else [] |}
  else {| completion := Normal tt; final := r; effects := [] |}.

Definition LIGHT_RED : string := ESC +:+ "[91m".
Definition LIGHT_GREEN : string := ESC +:+ "[92m".
Definition LIGHT_YELLOW : string := ESC +:+ "[93m".

(** The inner function of this [suiteEnd]:
    [suite.tests ? (Boolean(suite.error) || suite.tests.some(hasError)) : false]. *)
Fixpoint hasError (suite : Suite.node) : bool :=
  match suite with
  | Suite.TestNode _ => false
  | Suite.SuiteNode suite =>
      truthy_object (Suite.error suite)
      || existsb hasError (Suite.tests suite)
  end.

Definition unchanged (r : Runner) (effects : list Effect) : Result :=
  {| completion := Normal tt; final := r; effects := effects |}.

Definition suiteEnd (mode : Mode) (suite : Suite.t) (r : Runner) : Result :=
  if negb (Suite.hasParent suite) then
    (* runEnd will report all of this information, so do not repeat it *)
    if is_client mode then unchanged r []
    (* Runner mode test with no sessionId was some failed test, not a bug *)
    else if negb (truthy_string (Suite.sessionId suite)) then unchanged r []
    else
      match sessions r !! string_of_optional (Suite.sessionId suite) with
      | None =>
          if negb (proxyOnly r) then
            unchanged r
              [Write LIGHT_YELLOW;
               Write ("BUG: suiteEnd was received for invalid session "
                        +:+ string_of_optional (Suite.sessionId suite));
               Display reset;
               Write LF]
          else unchanged r []
      | Some session =>
          let hasError := hasError (Suite.SuiteNode suite) in
          let numFailedTests := Suite.numFailedTests suite in
          let numSkippedTests := Suite.numSkippedTests suite in
          let summary :=
            format "%s: %d/%d tests failed"
              [ArgS (Suite.name suite); ArgD numFailedTests;
               ArgD (Suite.numTests suite)] in
          let summary :=
            if truthy_number numSkippedTests then
              summary +:+ " (" +:+ string_of_number numSkippedTests
                +:+ " skipped)"
            else summary in
          let summary :=
            if hasError then summary +:+ "; fatal error occurred"
            else summary in
          unchanged r
            (match Session.coverage session with
             | Some collector => [SummaryReport collector]
             | None =>
                 [Write ("No unit test coverage for " +:+ Suite.name suite);
                  Display reset;
                  Write LF]
             end ++
             [Write (if truthy_number numFailedTests || hasError
                     then LIGHT_RED else LIGHT_GREEN);
              Write summary;
              Display reset;
              Write (LF +:+ LF)])
      end
  else unchanged r [].

End Handlers.
End Legacy.

(** ** Specification-side notions *)

(** The two optional suffixes of a summary line. *)
Definition skipped_suffix (numSkippedTests : Z) : string :=
  if truthy_number numSkippedTests then
    " (" +:+ string_of_number numSkippedTests +:+ " skipped)"
  else "".

Definition fatal_suffix (fatal : bool) : string :=
  if fatal then "; fatal error occurred" else "".

Section Notions.
Context `{Collaborators}.

(** The sum of a counter over the root suites of all registered sessions. *)
Definition sum_over (counter : Suite.t -> Z) (sessions : gmap string Session.t)
  : Z :=
  map_fold (fun _ session acc => counter (Session.suite session) + acc) 0 sessions.

(** [d] lies strictly below [n] in the result tree. *)
Inductive Descendant (d : Suite.node) : Suite.node -> Prop :=
| Descendant_child suite :
    In d (Suite.tests suite) -> Descendant d (Suite.SuiteNode suite)
| Descendant_deeper suite child :
    In child (Suite.tests suite) -> Descendant d child ->
    Descendant d (Suite.SuiteNode suite).

(** A test, respectively a suite, that carries an error object. *)
Definition failed_test (n : Suite.node) : Prop :=
  match n with
  | Suite.TestNode test => Test.error test <> None
  | Suite.SuiteNode _ => False
  end.

Definition failed_suite (n : Suite.node) : Prop :=
  match n with
  | Suite.TestNode _ => False
  | Suite.SuiteNode suite => Suite.error suite <> None
  end.

(** What [suiteEnd] writes about the coverage of a session before its
    summary line. *)
Definition session_coverage_effects (suite : Suite.t) (session : Session.t)
  : list Effect :=
  match Session.coverage session with
  | Some coverage => [Write LF; CoverageReport coverage]
  | None =>
      [Write ("No unit test coverage for " +:+ Suite.name suite);
       Display reset;
       Write LF]
  end.

(** What [runEnd] writes about the merged coverage before its summary
    line. *)
Definition total_coverage_effects (map : CoverageMap) : list Effect :=
  match files map with
  | [] => []
  | _ :: _ =>
      [Write LF;
       Display bright;
       Write ("Total coverage" +:+ LF);
       Display reset;
       CoverageReport map]
  end.

(** The events that raise the fatal-error flag: a run-level error and the
    end of a suite that carries an error. *)
Definition raises (event : Runner.Event) : bool :=
  match event with
  | Runner.ErrorEvent _ => true
  | Runner.SuiteEnd suite => truthy_object (Suite.error suite)
  | _ => false
  end.

Definition is_coverage_report (e : Effect) : bool :=
  match e with
  | CoverageReport _ => true
  | _ => false
  end.

(** What [deprecated] writes for a message it renders. *)
Definition deprecation_notice (message : DeprecationMessage.t) : list Effect :=
  [Foreground yellow;
   Write ("⚠︎ " +:+ DeprecationMessage.original message +:+ " is deprecated. ");
   Write (if truthy_string (DeprecationMessage.replacement message) then
            "Use " +:+ string_of_optional (DeprecationMessage.replacement message)
              +:+ " instead."
          else
            "Please open a ticket at https://github.com/theintern/intern/issues if you still "
              +:+ "require access to this function.")]
  ++ (if truthy_string (DeprecationMessage.message message) then
        [Write (" " +:+ string_of_optional (DeprecationMessage.message message))]
      else [])
  ++ [Write LF; Display reset].

(** The key under which an event registers a session, if it does. *)
Definition started (event : Runner.Event) : option string :=
  match event with
  | Runner.SuiteStart suite =>
      if Suite.hasParent suite then None
      else Some (or_string (Suite.sessionId suite) "")
  | _ => None
  end.

(** The root suite that an event registers under [key], if it does. *)
Definition starts (key : string) (event : Runner.Event) : option Suite.t :=
  match event with
  | Runner.SuiteStart suite =>
      if negb (Suite.hasParent suite)
         && String.eqb (or_string (Suite.sessionId suite) "") key
      then Some suite else None
  | _ => None
  end.

(** The root suite that the last of these events to register one under
    [key] registers. *)
Fixpoint last_started (key : string) (events : list Runner.Event)
  (before : option Suite.t) : option Suite.t :=
  match events with
  | [] => before
  | event :: events =>
      last_started key events
        (match starts key event with
         | Some suite => Some suite
         | None => before
         end)
  end.

(** The events whose handler ends by an exception in a given state: the
    coverage of a session that is not registered, and a download progress
    without its [progress]. *)
Definition throws (event : Runner.Event) (r : Runner) : bool :=
  match event with
  | Runner.Coverage message =>
      negb (bool_decide
              (is_Some (sessions r
                          !! or_string (CoverageMessage.sessionId message) "")))
  | Runner.TunnelDownloadProgress message =>
      negb (bool_decide (is_Some (TunnelMessage.progress message)))
  | _ => false
  end.

(** The key that a [deprecated] event records, if the event is one. *)
Definition deprecates (key : string) (event : Runner.Event) : bool :=
  match event with
  | Runner.Deprecated message =>
      String.eqb (Runner.deprecation_key message) key
  | _ => false
  end.

(** The coverage of a session after the coverage data [data] were merged
    into it one after the other. *)
Definition merged (before : option CoverageMap) (data : list CoverageMap)
  : option CoverageMap :=
  match data with
  | [] => before
  | _ :: _ => Some (foldl merge (default createCoverageMap before) data)
  end.

(** The [coverage] events of one session, one for each item of [data]. *)
Definition coverage_events (sessionId : option string)
  (data : list CoverageMap) : list Runner.Event :=
  List.map
    (fun coverage =>
       Runner.Coverage
         {| CoverageMessage.sessionId := sessionId;
            CoverageMessage.coverage := coverage |})
    data.

(** The summary line of a session and its colour. *)
Definition session_summary_effects (suite : Suite.t) : list Effect :=
  [Display bright;
   Foreground
     (if truthy_number (Suite.numFailedTests suite)
         || truthy (Runner.hasError (Suite.SuiteNode suite))
      then red else green);
   Write (Suite.name suite +:+ ": "
            +:+ string_of_number (Suite.numFailedTests suite) +:+ "/"
            +:+ string_of_number (Suite.numTests suite) +:+ " tests failed"
            +:+ skipped_suffix (Suite.numSkippedTests suite)
            +:+ fatal_suffix (truthy (Runner.hasError (Suite.SuiteNode suite))));
   Display reset;
   Write LF].

(** The fields of the reporter after an event, without the effects: what
    the handlers assign. *)
Definition after (event : Runner.Event) (r : Runner) : Runner :=
  match event with
  | Runner.Coverage message =>
      let key := or_string (CoverageMessage.sessionId message) "" in
      match sessions r !! key with
      | Some session =>
          set_sessions
            <[key := {| Session.coverage :=
                          Some (merge (default createCoverageMap
                                         (Session.coverage session))
                                      (CoverageMessage.coverage message));
                        Session.suite := Session.suite session |}]> r
      | None => r
      end
  | Runner.Deprecated message =>
      if Runner.seen (_deprecationMessages r) (Runner.deprecation_key message)
      then r
      else set_deprecationMessages <[Runner.deprecation_key message := true]> r
  | Runner.ErrorEvent _ => set_hasErrors true r
  | Runner.SuiteEnd suite =>
      if truthy_object (Suite.error suite) then set_hasErrors true r else r
  | Runner.SuiteStart suite =>
      if Suite.hasParent suite then r
      else set_sessions
             <[or_string (Suite.sessionId suite) "" :=
                 {| Session.coverage := None; Session.suite := suite |}]> r
  | _ => r
  end.

(** An event whose handler does not look up a key that the prototype chain
    may answer: only [coverage] goes on with what an absent key gives. *)
Definition ordinary_event (event : Runner.Event) : bool :=
  match event with
  | Runner.Coverage message =>
      ordinary_key (or_string (CoverageMessage.sessionId message) "")
  | _ => true
  end.

End Notions.

Definition ends_with (suffix s : string) : Prop :=
  exists prefix, s = prefix +:+ suffix.

(** A string without the separator of the deprecation keys. *)
Fixpoint no_bar (s : string) : bool :=
  match s with
  | EmptyString => true
  | String c s => negb (Ascii.eqb c "|") && no_bar s
  end.

(** [lines.join(sep)]. *)
Fixpoint join (sep : string) (lines : list string) : string :=
  match lines with
  | [] => ""
  | [line] => line
  | line :: lines => line +:+ sep +:+ join sep lines
  end.

Fixpoint no_percent (s : string) : bool :=
  match s with
  | EmptyString => true
  | String c s => negb (Ascii.eqb c "%") && no_percent s
  end.

(** ** A concrete set of collaborators

    Used to run the handlers on concrete events: an error is its message, a
    coverage map is the list of the files it covers, durations are whole
    seconds and the download percentage is truncated. *)

#[local] Instance sample : Collaborators := {|
  Error := string;
  formatError := fun e => e;
  CoverageMap := list string;
  createCoverageMap := [];
  merge := fun receiver other => receiver ++ other;
  files := fun map => map;
  seconds := fun ms => string_of_number (ms / 1000);
  percentFixed3 := fun received total =>
    string_of_number (received * 100 / total) +:+ ".000"
|}.

Definition fresh : Runner := final (Runner.constructor false false false).

Definition root (name : string) (sessionId : option string)
  (numTests numFailedTests numSkippedTests : Z) (tests : list Suite.node)
  : Suite.t :=
  Suite.mk name name sessionId false None
    numTests numFailedTests numSkippedTests tests.

(** Two remote sessions: ten tests with two failures and one skipped, and
    five tests that all passed. *)
Definition suite_A : Suite.t := root "chrome" (Some "A") 10 2 1 [].
Definition suite_B : Suite.t := root "firefox" (Some "B") 5 0 0 [].

Definition two_sessions : Runner :=
  fst (Runner.deliver [Runner.SuiteStart suite_A; Runner.SuiteStart suite_B]
         fresh).

(** The same two sessions after a run-level error, none of their tests
    having failed. *)
Definition suite_C : Suite.t := root "chrome" (Some "A") 10 0 0 [].

Definition two_sessions_after_error : Runner :=
  fst (Runner.deliver [Runner.SuiteStart suite_C; Runner.SuiteStart suite_B;
                       Runner.ErrorEvent "socket closed"]
         fresh).

(** A root suite whose only test carries an error although the suite counts
    no failed test. *)
Definition failed_test_node : Suite.node :=
  Suite.TestNode
    {| Test.id := "main - loads"; Test.timeElapsed := 5;
       Test.error := Some "boom"; Test.skipped := None |}.

Definition suite_with_failed_test : Suite.t :=
  root "main" (Some "A") 1 0 0 [failed_test_node].

(** A nested suite whose set-up failed, one without an error, and the root
    above the former. *)
Definition nested_failed : Suite.t :=
  Suite.mk "main - inner" "inner" (Some "A") true (Some "before failed")
    0 0 0 [].

Definition nested_passed : Suite.t :=
  Suite.mk "main - inner" "inner" (Some "A") true None 3 0 0 [].

Definition suite_above_failed : Suite.t :=
  root "main" (Some "A") 0 0 0 [Suite.SuiteNode nested_failed].

(** Two deprecation messages that differ in their first two fields. *)
Definition notice_1 : DeprecationMessage.t :=
  {| DeprecationMessage.original := "a|b";
     DeprecationMessage.replacement := Some "c";
     DeprecationMessage.message := None |}.

Definition notice_2 : DeprecationMessage.t :=
  {| DeprecationMessage.original := "a";
     DeprecationMessage.replacement := Some "b|c";
     DeprecationMessage.message := None |}.

(** Tests for [testEnd], and a reporter that hides passed and skipped
    tests. *)
Definition passed_test : Test.t :=
  {| Test.id := "main - adds"; Test.timeElapsed := 2000;
     Test.error := None; Test.skipped := None |}.

Definition skipped_test : Test.t :=
  {| Test.id := "main - later"; Test.timeElapsed := 0;
     Test.error := None; Test.skipped := Some "not yet" |}.

Definition errored_test : Test.t :=
  {| Test.id := "main - loads"; Test.timeElapsed := 3000;
     Test.error := Some "boom"; Test.skipped := None |}.

Definition quiet : Runner := final (Runner.constructor false true true).

(** Two deprecation messages without the separator in their fields. *)
Definition notice_3 : DeprecationMessage.t :=
  {| DeprecationMessage.original := "intern.args";
     DeprecationMessage.replacement := Some "intern.config";
     DeprecationMessage.message := None |}.

Definition notice_4 : DeprecationMessage.t :=
  {| DeprecationMessage.original := "intern.args";
     DeprecationMessage.replacement := None;
     DeprecationMessage.message := None |}.

(** A reporter with the session of [suite_A] alone, and an earlier
    reporter with the same session. *)
Definition one_session : Runner := final (Runner.suiteStart suite_A fresh).

Definition legacy_one_session : Legacy.Runner :=
  Legacy.final
    (Legacy.suiteStart suite_A
       {| Legacy.sessions := ∅;
          Legacy.hasErrors := false;
          Legacy.proxyOnly := false |}).

(** ** Properties *)

Section StringLemmas.

Lemma or_string_default (s : option string) : or_string s "" = default "" s.
Proof.
  destruct s as [s|]; simpl; [|reflexivity].
  destruct (String.eqb_spec s ""); congruence.
Qed.

Lemma append_nil_l (s : string) : "" +:+ s = s.
Proof. reflexivity. Qed.

Lemma append_nil_r (s : string) : s +:+ "" = s.
Proof.
  induction s as [|c s IH]; [reflexivity|].
  change (String c (s +:+ "") = String c s). now rewrite IH.
Qed.

Lemma append_cons (c : ascii) (a b : string) :
  String c a +:+ b = String c (a +:+ b).
Proof. reflexivity. Qed.

Lemma append_assoc (a b c : string) : (a +:+ b) +:+ c = a +:+ b +:+ c.
Proof.
  induction a as [|x a IH]; [reflexivity|].
  rewrite !append_cons. now rewrite IH.
Qed.

Lemma no_percent_app (a b : string) :
  no_percent (a +:+ b) = no_percent a && no_percent b.
Proof.
  induction a as [|x a IH]; [reflexivity|].
  rewrite append_cons. simpl. rewrite IH. now rewrite andb_assoc.
Qed.

Lemma no_percent_uint (d : Decimal.uint) :
  no_percent (NilEmpty.string_of_uint d) = true.
Proof. induction d; simpl; auto. Qed.

Lemma no_percent_string_of_number (n : Z) :
  no_percent (string_of_number n) = true.
Proof.
  unfold string_of_number, NilZero.string_of_int, NilZero.string_of_uint.
  destruct (Z.to_int n) as [d|d]; destruct d; simpl;
    auto using no_percent_uint.
Qed.

Lemma format_no_percent (s : string) : no_percent s = true -> format s [] = s.
Proof.
  induction s as [|c s IH]; simpl; [reflexivity|].
  intros Hs. apply andb_prop in Hs as [Hc Hs].
  apply negb_true_iff in Hc. rewrite Hc. now rewrite IH.
Qed.

Lemma no_percent_suffixes (numSkippedTests : Z) (fatal : bool) :
  no_percent (skipped_suffix numSkippedTests +:+ fatal_suffix fatal) = true.
Proof.
  rewrite no_percent_app. unfold skipped_suffix, fatal_suffix.
  destruct (truthy_number numSkippedTests), fatal;
    rewrite ?no_percent_app, ?no_percent_string_of_number; reflexivity.
Qed.

(** The two templates of the reporter, formatted. *)
Lemma format_total (suffix : string) (numEnvironments numFailedTests numTests : Z) :
  no_percent suffix = true ->
  format ("TOTAL: tested %d platforms, %d/%d tests failed" +:+ suffix)
    [ArgD numEnvironments; ArgD numFailedTests; ArgD numTests]
  = "TOTAL: tested " +:+ string_of_number numEnvironments +:+ " platforms, "
      +:+ string_of_number numFailedTests +:+ "/"
      +:+ string_of_number numTests +:+ " tests failed" +:+ suffix.
Proof.
  intros Hsuffix. rewrite !append_cons, !append_nil_l. simpl.
  now rewrite (format_no_percent suffix Hsuffix).
Qed.

Lemma format_summary (name : string) (numFailedTests numTests : Z) :
  format "%s: %d/%d tests failed" [ArgS name; ArgD numFailedTests; ArgD numTests]
  = name +:+ ": " +:+ string_of_number numFailedTests +:+ "/"
      +:+ string_of_number numTests +:+ " tests failed".
Proof. simpl. now rewrite ?append_cons, ?append_nil_l. Qed.

End StringLemmas.

Section HandlerProperties.
Context `{Collaborators}.

(** *** [coverage] *)

(** A session that was never registered, under a key that the prototype
    chain does not answer, makes [coverage] end by a [TypeError], before
    any field is assigned. *)
Lemma coverage_unknown_session (message : CoverageMessage.t) (r : Runner) :
  ordinary_key (or_string (CoverageMessage.sessionId message) "") = true ->
  sessions r !! or_string (CoverageMessage.sessionId message) "" = None ->
  Runner.coverage message r =
    throw (TypeError "Cannot read property 'coverage' of undefined") r.
Proof.
  intros _ Hnone. unfold Runner.coverage, bind, this. simpl. now rewrite Hnone.
Qed.

(** For a registered session the coverage is merged into the session's map,
    which is created first when the session has none. *)
Lemma coverage_known_session (message : CoverageMessage.t) (r : Runner)
  (session : Session.t) :
  let key := or_string (CoverageMessage.sessionId message) "" in
  sessions r !! key = Some session ->
  completion (Runner.coverage message r) = Normal tt /\
  effects (Runner.coverage message r) = [] /\
  sessions (final (Runner.coverage message r)) !! key =
    Some {| Session.coverage :=
              Some (merge (default createCoverageMap (Session.coverage session))
                          (CoverageMessage.coverage message));
            Session.suite := Session.suite session |}.
Proof.
  intros key Hsome. unfold Runner.coverage, bind, this. simpl.
  fold key. rewrite Hsome. simpl. repeat split.
  rewrite lookup_insert_eq. now destruct (Session.coverage session).
Qed.

(** *** [suiteStart] *)

(** C9, for session identifiers other than ["__proto__"]. [suiteStart]
    leaves the sessions map alone for a suite that has a parent; for a
    parent-less suite whose key [suite.sessionId] (the empty string when
    there is none) is not ["__proto__"], it binds the key to an entry that
    holds the suite and no coverage map, whatever was bound to that key
    before, and changes no other key. For the key ["__proto__"] the
    assignment of the handler replaces the prototype of the object and
    creates no entry, which the map does not show. *)
Theorem suiteStart_registers_root (suite : Suite.t) (r : Runner) :
  completion (Runner.suiteStart suite r) = Normal tt /\
  (Suite.hasParent suite = true ->
   sessions (final (Runner.suiteStart suite r)) = sessions r) /\
  (Suite.hasParent suite = false ->
   default "" (Suite.sessionId suite) <> "__proto__" ->
   sessions (final (Runner.suiteStart suite r))
     !! default "" (Suite.sessionId suite)
   = Some {| Session.coverage := None; Session.suite := suite |} /\
   forall other : string,
     other <> default "" (Suite.sessionId suite) ->
     sessions (final (Runner.suiteStart suite r)) !! other
     = sessions r !! other).
Proof.
  unfold Runner.suiteStart. rewrite or_string_default.
  destruct (Suite.hasParent suite); simpl.
  - repeat split; intros; congruence.
  - destruct (truthy_string (Suite.sessionId suite)); simpl;
      (split; [reflexivity|]); (split; [congruence|]); intros _ _;
      (split; [apply lookup_insert_eq|]);
      intros other Hother; now rewrite lookup_insert_ne.
Qed.

(** *** [suiteEnd] on nested suites *)

(** C5, as amended. For a suite that has a parent and carries no error,
    [suiteEnd] does nothing: nothing is written and no field of the
    reporter changes. *)
Theorem suiteEnd_nested_without_error (suite : Suite.t) (r : Runner) :
  Suite.hasParent suite = true ->
  Suite.error suite = None ->
  completion (Runner.suiteEnd suite r) = Normal tt /\
  effects (Runner.suiteEnd suite r) = [] /\
  final (Runner.suiteEnd suite r) = r.
Proof.
  intros Hparent Herror. unfold Runner.suiteEnd.
  rewrite Herror, Hparent. simpl. auto.
Qed.

(** A suite that carries an error is reported and raises the flag, with or
    without a parent. *)
Lemma suiteEnd_with_error (suite : Suite.t) (e : Error) (r : Runner) :
  Suite.error suite = Some e ->
  effects (Runner.suiteEnd suite r) =
    [Foreground red;
     Write ("Suite " +:+ Suite.id suite +:+ " FAILED" +:+ LF);
     Write (formatError e);
     Display reset;
     Write LF] /\
  final (Runner.suiteEnd suite r) = set_hasErrors true r.
Proof.
  intros Herror. unfold Runner.suiteEnd. rewrite Herror. simpl. auto.
Qed.

(** *** [testEnd] *)

(** C10. A test without an error writes nothing when it passed and
    [hidePassed] is set, and nothing when it was skipped and [hideSkipped]
    is set; a test with an error is reported with its identifier, its
    elapsed time and its formatted error, whatever the two flags are. *)
Theorem testEnd_gating (test : Test.t) (r : Runner) :
  (Test.error test = None ->
   truthy_string (Test.skipped test) = false ->
   hidePassed r = true ->
   effects (Runner.testEnd test r) = []) /\
  (Test.error test = None ->
   truthy_string (Test.skipped test) = true ->
   hideSkipped r = true ->
   effects (Runner.testEnd test r) = []) /\
  (forall e : Error,
   Test.error test = Some e ->
   effects (Runner.testEnd test r) =
     [Foreground red;
      Write ("× " +:+ Test.id test);
      Write (" (" +:+ seconds (Test.timeElapsed test) +:+ "s)");
      Write LF;
      Display reset;
      Foreground red;
      Write (formatError e);
      Display reset;
      Write LF]).
Proof.
  unfold Runner.testEnd, bind, this. simpl. repeat split.
  - intros -> -> ->. reflexivity.
  - intros -> -> ->. reflexivity.
  - intros e ->. reflexivity.
Qed.

(** With the flags unset, passed and skipped tests are reported. *)
Lemma testEnd_shown (test : Test.t) (r : Runner) :
  Test.error test = None ->
  (truthy_string (Test.skipped test) = false ->
   hidePassed r = false ->
   effects (Runner.testEnd test r) =
     [Foreground green;
      Write ("✓ " +:+ Test.id test);
      Display reset;
      Write (" (" +:+ seconds (Test.timeElapsed test) +:+ "s)");
      Display reset;
      Write LF]) /\
  (truthy_string (Test.skipped test) = true ->
   hideSkipped r = false ->
   effects (Runner.testEnd test r) =
     [Foreground magenta;
      Write ("~ " +:+ Test.id test);
      Display reset;
      Write (" (" +:+ string_of_optional (Test.skipped test) +:+ ")");
      Display reset;
      Write LF]).
Proof.
  intros Herror. unfold Runner.testEnd, bind, this. simpl. rewrite Herror.
  split.
  - intros -> ->. reflexivity.
  - intros Hskipped ->. rewrite Hskipped. simpl.
    destruct (Test.skipped test) as [reason|]; [|discriminate].
    simpl in *. now destruct (String.eqb reason "").
Qed.

End HandlerProperties.

Section ErrorTraversal.
Context `{Collaborators}.

Lemma hasError_test (test : Test.t) :
  Runner.hasError (Suite.TestNode test) = VBoolean false.
Proof. reflexivity. Qed.

Lemma hasError_suite (suite : Suite.t) :
  Runner.hasError (Suite.SuiteNode suite) =
    or_value (Suite.error suite)
      (VBoolean (existsb (fun child => truthy (Runner.hasError child))
                   (Suite.tests suite))).
Proof. now destruct suite. Qed.

Lemma hasError_failed_suite (n : Suite.node) :
  failed_suite n -> truthy (Runner.hasError n) = true.
Proof.
  destruct n as [test|suite]; [simpl; tauto|].
  intros Herror. rewrite hasError_suite. unfold failed_suite in Herror.
  destruct (Suite.error suite); [reflexivity|congruence].
Qed.

Lemma hasError_child (suite : Suite.t) (child : Suite.node) :
  In child (Suite.tests suite) ->
  truthy (Runner.hasError child) = true ->
  truthy (Runner.hasError (Suite.SuiteNode suite)) = true.
Proof.
  intros Hin Hchild. rewrite hasError_suite.
  destruct (Suite.error suite); [reflexivity|]. simpl.
  apply existsb_exists. eauto.
Qed.

(** A suite with an error anywhere below a node makes the traversal
    answer a truthy value. *)
Lemma hasError_descendant (d n : Suite.node) :
  Descendant d n -> failed_suite d -> truthy (Runner.hasError n) = true.
Proof.
  intros Hdesc Hfailed.
  induction Hdesc as [suite Hin|suite child Hin Hdesc IH].
  - eapply hasError_child; eauto using hasError_failed_suite.
  - eapply hasError_child; eauto.
Qed.

(** Induction on the result tree: a property of all tests that passes from
    the children of a suite to the suite holds of every node. *)
Lemma node_induction (P : Suite.node -> Prop) :
  (forall test, P (Suite.TestNode test)) ->
  (forall suite, Forall P (Suite.tests suite) -> P (Suite.SuiteNode suite)) ->
  forall n, P n.
Proof.
  intros Htest Hsuite. fix IH 1. intros [test|suite].
  - apply Htest.
  - apply Hsuite.
    destruct suite as [id name sid parent err nt nf ns children]. simpl.
    induction children as [|c children IHc]; constructor.
    + apply IH.
    + exact IHc.
Qed.

(** Conversely a truthy answer comes from a suite: the node itself or one
    below it. The errors of tests play no part. *)
Lemma hasError_inv (n : Suite.node) :
  truthy (Runner.hasError n) = true ->
  failed_suite n \/ exists d, Descendant d n /\ failed_suite d.
Proof.
  induction n as [test|suite IH] using node_induction; [discriminate|].
  rewrite hasError_suite. unfold failed_suite at 1.
  destruct (Suite.error suite) as [e|]; [left; congruence|]. simpl.
  intros Hsome. right.
  apply existsb_exists in Hsome as [child [Hin Htruthy]].
  rewrite Forall_forall in IH.
  destruct (IH child) as [Hself|[d [Hdesc Hfailed]]];
    [now apply list_elem_of_In|exact Htruthy| |].
  - exists child. split; [now apply Descendant_child|exact Hself].
  - exists d. split; [|exact Hfailed].
    eapply Descendant_deeper; eauto.
Qed.

(** X17. The traversal answers a truthy value exactly when the node is a
    suite with an error, or has such a suite below it. *)
Lemma hasError_iff (n : Suite.node) :
  truthy (Runner.hasError n) = true <->
  failed_suite n \/ exists d, Descendant d n /\ failed_suite d.
Proof.
  split; [apply hasError_inv|].
  intros [Hself|[d [Hdesc Hfailed]]].
  - now apply hasError_failed_suite.
  - eapply hasError_descendant; eauto.
Qed.

End ErrorTraversal.

Section SessionSummary.
Context `{Collaborators}.

(** The effects of [suiteEnd] for a root suite without an error of its own
    whose session is registered. *)
Lemma suiteEnd_root_effects (suite : Suite.t) (r : Runner) (session : Session.t) :
  Suite.error suite = None ->
  Suite.hasParent suite = false ->
  sessions r !! or_string (Suite.sessionId suite) "" = Some session ->
  effects (Runner.suiteEnd suite r) =
    session_coverage_effects suite session ++
    [Display bright;
     Foreground
       (if truthy_number (Suite.numFailedTests suite)
           || greater_than_zero (Runner.hasError (Suite.SuiteNode suite))
        then red else green);
     Write (Runner.suite_summary suite (Runner.hasError (Suite.SuiteNode suite)));
     Display reset;
     Write LF] /\
  final (Runner.suiteEnd suite r) = r.
Proof.
  intros Herror Hparent Hsession. unfold Runner.suiteEnd.
  rewrite Herror, Hparent. unfold bind at 1, this. simpl.
  rewrite Hsession. unfold session_coverage_effects.
  destruct (Session.coverage session); simpl; auto.
Qed.

(** The summary line, spelled out. *)
Lemma suite_summary_spelled (suite : Suite.t) (v : Value) :
  Runner.suite_summary suite v =
    Suite.name suite +:+ ": " +:+ string_of_number (Suite.numFailedTests suite)
      +:+ "/" +:+ string_of_number (Suite.numTests suite) +:+ " tests failed"
      +:+ skipped_suffix (Suite.numSkippedTests suite)
      +:+ fatal_suffix (truthy v).
Proof.
  unfold Runner.suite_summary, skipped_suffix, fatal_suffix.
  rewrite format_summary.
  destruct (truthy_number (Suite.numSkippedTests suite)), (truthy v);
    rewrite ?append_assoc, ?append_nil_r; reflexivity.
Qed.

(** For a root suite without an error of its own, the value of the
    traversal is a boolean, so that [hasError > 0] agrees with its
    truthiness. *)
Lemma hasError_root_boolean (suite : Suite.t) :
  Suite.error suite = None ->
  greater_than_zero (Runner.hasError (Suite.SuiteNode suite))
  = truthy (Runner.hasError (Suite.SuiteNode suite)).
Proof. intros Herror. rewrite hasError_suite, Herror. reflexivity. Qed.

(** C2, as amended. For a root suite without an error of its own whose
    session is registered, a suite anywhere below it that carries an error
    makes the traversal answer true; the summary line of the session then
    ends with the fatal-error remark and is written in red, whatever the
    number of failed tests. *)
Theorem suiteEnd_fatal_when_descendant_suite_failed
  (suite : Suite.t) (r : Runner) (session : Session.t) (d : Suite.node) :
  Suite.error suite = None ->
  Suite.hasParent suite = false ->
  sessions r !! or_string (Suite.sessionId suite) "" = Some session ->
  Descendant d (Suite.SuiteNode suite) ->
  failed_suite d ->
  truthy (Runner.hasError (Suite.SuiteNode suite)) = true /\
  exists summary : string,
    ends_with "; fatal error occurred" summary /\
    effects (Runner.suiteEnd suite r) =
      session_coverage_effects suite session ++
      [Display bright; Foreground red; Write summary; Display reset; Write LF].
Proof.
  intros Herror Hparent Hsession Hdesc Hfailed.
  assert (Htruthy : truthy (Runner.hasError (Suite.SuiteNode suite)) = true)
    by (eapply hasError_descendant; eauto).
  split; [exact Htruthy|].
  exists (Runner.suite_summary suite (Runner.hasError (Suite.SuiteNode suite))).
  split.
  - unfold Runner.suite_summary. rewrite Htruthy. eexists. reflexivity.
  - destruct (suiteEnd_root_effects suite r session Herror Hparent Hsession)
      as [-> _].
    rewrite (hasError_root_boolean suite Herror), Htruthy.
    now rewrite orb_true_r.
Qed.

(** When no suite below the root carries an error, the errors of the tests
    below it do not make the traversal answer true. *)
Lemma hasError_ignores_tests (suite : Suite.t) :
  Suite.error suite = None ->
  (forall d, Descendant d (Suite.SuiteNode suite) -> ~ failed_suite d) ->
  truthy (Runner.hasError (Suite.SuiteNode suite)) = false.
Proof.
  intros Herror Hnone.
  destruct (truthy (Runner.hasError (Suite.SuiteNode suite))) eqn:Htruthy;
    [|reflexivity].
  apply hasError_inv in Htruthy as [Hself|[d [Hdesc Hfailed]]].
  - simpl in Hself. congruence.
  - now apply Hnone in Hdesc.
Qed.

End SessionSummary.

Section RunTotals.
Context `{Collaborators}.

Lemma sum_over_empty (counter : Suite.t -> Z) : sum_over counter ∅ = 0.
Proof. unfold sum_over. apply map_fold_empty. Qed.

(** [sum_over] adds the counter of each registered session once. *)
Lemma sum_over_insert (counter : Suite.t -> Z) (sessions : gmap string Session.t)
  (key : string) (session : Session.t) :
  sessions !! key = None ->
  sum_over counter (<[key := session]> sessions)
  = counter (Session.suite session) + sum_over counter sessions.
Proof.
  intros Hfresh. unfold sum_over.
  rewrite map_fold_insert_L; [reflexivity| |exact Hfresh].
  intros. lia.
Qed.

Lemma foldl_accumulate (l : list (string * Session.t)) (acc : Totals.t) :
  let totals := foldl (fun acc entry => Runner.accumulate acc (snd entry)) acc l in
  let sum counter :=
    foldr (fun entry n => counter (Session.suite (snd entry)) + n) 0 l in
  Totals.numTests totals = Totals.numTests acc + sum Suite.numTests /\
  Totals.numFailedTests totals
  = Totals.numFailedTests acc + sum Suite.numFailedTests /\
  Totals.numSkippedTests totals
  = Totals.numSkippedTests acc + sum Suite.numSkippedTests.
Proof.
  revert acc. induction l as [|entry l IH]; intros acc; simpl.
  - repeat split; lia.
  - destruct (IH (Runner.accumulate acc (snd entry))) as (Ht & Hf & Hs).
    rewrite Ht, Hf, Hs. simpl. repeat split; lia.
Qed.

Lemma foldr_entries (counter : Suite.t -> Z) (l : list (string * Session.t)) :
  foldr (fun entry n => counter (Session.suite (snd entry)) + n) 0 l
  = foldr (uncurry (fun _ session acc => counter (Session.suite session) + acc))
      0 l.
Proof. induction l as [|[key session] l IH]; simpl; congruence. Qed.

(** The counters that the loop of [runEnd] computes are the sums over the
    registered sessions. *)
Lemma aggregate_counts (sessions : gmap string Session.t) :
  Totals.numTests (Runner.aggregate sessions) = sum_over Suite.numTests sessions /\
  Totals.numFailedTests (Runner.aggregate sessions)
  = sum_over Suite.numFailedTests sessions /\
  Totals.numSkippedTests (Runner.aggregate sessions)
  = sum_over Suite.numSkippedTests sessions.
Proof.
  unfold Runner.aggregate, sum_over. rewrite !map_fold_foldr.
  pose proof (foldl_accumulate (map_to_list sessions)
    {| Totals.map := createCoverageMap; Totals.numTests := 0;
       Totals.numFailedTests := 0; Totals.numSkippedTests := 0 |})
    as (Ht & Hf & Hs).
  simpl in Ht, Hf, Hs. rewrite Ht, Hf, Hs.
  repeat split; apply foldr_entries.
Qed.

(** The effects of [runEnd]. *)
Lemma runEnd_effects (r : Runner) :
  final (Runner.runEnd r) = r /\
  completion (Runner.runEnd r) = Normal tt /\
  effects (Runner.runEnd r) =
    if decide (1 < size (sessions r))%nat then
      total_coverage_effects (Totals.map (Runner.aggregate (sessions r))) ++
      [Display bright;
       Foreground
         (if (0 <? sum_over Suite.numFailedTests (sessions r)) || hasErrors r
          then red else green);
       Write (format
                (Runner.total_message
                   (sum_over Suite.numSkippedTests (sessions r))
                   (sum_over Suite.numFailedTests (sessions r))
                   (hasErrors r))
                [ArgD (Z.of_nat (size (sessions r)));
                 ArgD (sum_over Suite.numFailedTests (sessions r));
                 ArgD (sum_over Suite.numTests (sessions r))]);
       Display reset;
       Write LF]
    else [].
Proof.
  destruct (aggregate_counts (sessions r)) as (Ht & Hf & Hs).
  unfold Runner.runEnd, bind at 1, this. simpl.
  case_decide as Hsize.
  - assert (Hlt : (1 <? Z.of_nat (size (sessions r))) = true)
      by (apply Z.ltb_lt; lia).
    rewrite Hlt, Ht, Hf, Hs. unfold total_coverage_effects.
    destruct (files (Totals.map (Runner.aggregate (sessions r)))); simpl; auto.
  - assert (Hge : (1 <? Z.of_nat (size (sessions r))) = false)
      by (apply Z.ltb_ge; lia).
    rewrite Hge. simpl. auto.
Qed.

End RunTotals.

Section RunSummary.
Context `{Collaborators}.

Lemma total_message_suffixes (numSkippedTests numFailedTests : Z)
  (hasErrors : bool) :
  Runner.total_message numSkippedTests numFailedTests hasErrors =
    "TOTAL: tested %d platforms, %d/%d tests failed"
      +:+ skipped_suffix numSkippedTests
      +:+ fatal_suffix (hasErrors && negb (truthy_number numFailedTests)).
Proof.
  unfold Runner.total_message, skipped_suffix, fatal_suffix.
  destruct (truthy_number numSkippedTests),
    (hasErrors && negb (truthy_number numFailedTests));
    rewrite ?append_assoc, ?append_nil_r; reflexivity.
Qed.

(** The line that [runEnd] writes, spelled out. *)
Lemma total_line_spelled (numEnvironments numTests numFailedTests numSkippedTests : Z)
  (hasErrors : bool) :
  format (Runner.total_message numSkippedTests numFailedTests hasErrors)
    [ArgD numEnvironments; ArgD numFailedTests; ArgD numTests]
  = "TOTAL: tested " +:+ string_of_number numEnvironments +:+ " platforms, "
      +:+ string_of_number numFailedTests +:+ "/"
      +:+ string_of_number numTests +:+ " tests failed"
      +:+ skipped_suffix numSkippedTests
      +:+ fatal_suffix (hasErrors && negb (truthy_number numFailedTests)).
Proof.
  rewrite total_message_suffixes. apply format_total, no_percent_suffixes.
Qed.

(** What [runEnd] writes when more than one session is registered, with the
    line spelled out. *)
Lemma runEnd_writes (r : Runner) :
  (1 < size (sessions r))%nat ->
  effects (Runner.runEnd r) =
    total_coverage_effects (Totals.map (Runner.aggregate (sessions r))) ++
    [Display bright;
     Foreground
       (if (0 <? sum_over Suite.numFailedTests (sessions r)) || hasErrors r
        then red else green);
     Write ("TOTAL: tested " +:+ string_of_number (Z.of_nat (size (sessions r)))
              +:+ " platforms, "
              +:+ string_of_number (sum_over Suite.numFailedTests (sessions r))
              +:+ "/"
              +:+ string_of_number (sum_over Suite.numTests (sessions r))
              +:+ " tests failed"
              +:+ skipped_suffix (sum_over Suite.numSkippedTests (sessions r))
              +:+ fatal_suffix
                    (hasErrors r
                     && negb (truthy_number
                                (sum_over Suite.numFailedTests (sessions r)))));
     Display reset;
     Write LF].
Proof.
  intros Hsize.
  destruct (runEnd_effects r) as (_ & _ & Heffects).
  rewrite decide_True in Heffects by exact Hsize.
  now rewrite total_line_spelled in Heffects.
Qed.

(** C3. The counters that the loop of [runEnd] computes are the sums of
    [numTests], [numFailedTests] and [numSkippedTests] over the root suites
    of all registered sessions; when [runEnd] writes the [TOTAL] line, the
    numbers in it are these sums and the number of platforms is the number
    of registered sessions. *)
Theorem runEnd_totals_are_sums (r : Runner) :
  Totals.numTests (Runner.aggregate (sessions r))
  = sum_over Suite.numTests (sessions r) /\
  Totals.numFailedTests (Runner.aggregate (sessions r))
  = sum_over Suite.numFailedTests (sessions r) /\
  Totals.numSkippedTests (Runner.aggregate (sessions r))
  = sum_over Suite.numSkippedTests (sessions r) /\
  ((1 < size (sessions r))%nat ->
   effects (Runner.runEnd r) =
    total_coverage_effects (Totals.map (Runner.aggregate (sessions r))) ++
    [Display bright;
     Foreground
       (if (0 <? sum_over Suite.numFailedTests (sessions r)) || hasErrors r
        then red else green);
     Write ("TOTAL: tested " +:+ string_of_number (Z.of_nat (size (sessions r)))
              +:+ " platforms, "
              +:+ string_of_number (sum_over Suite.numFailedTests (sessions r))
              +:+ "/"
              +:+ string_of_number (sum_over Suite.numTests (sessions r))
              +:+ " tests failed"
              +:+ skipped_suffix (sum_over Suite.numSkippedTests (sessions r))
              +:+ fatal_suffix
                    (hasErrors r
                     && negb (truthy_number
                                (sum_over Suite.numFailedTests (sessions r)))));
     Display reset;
     Write LF]).
Proof.
  destruct (aggregate_counts (sessions r)) as (Ht & Hf & Hs).
  pose proof (runEnd_writes r) as Heffects. auto.
Qed.

Lemma in_total_coverage_effects (map reported : CoverageMap) :
  In (CoverageReport reported) (total_coverage_effects map) <->
  files map <> [] /\ reported = map.
Proof.
  unfold total_coverage_effects. destruct (files map); simpl.
  - intuition congruence.
  - split.
    + intros Hin. split; [discriminate|]. intuition congruence.
    + intros [_ ->]. tauto.
Qed.

(** C4, as amended, for [runEnd] of the current reporter. With at most one
    registered session [runEnd] writes nothing. With more than one it writes the [TOTAL] line, preceded by the
    combined coverage report exactly when the merged coverage map lists at
    least one file. *)
Theorem runEnd_gated_by_sessions (r : Runner) :
  ((size (sessions r) <= 1)%nat -> effects (Runner.runEnd r) = []) /\
  ((exists rest : string,
      In (Write ("TOTAL: tested " +:+ rest)) (effects (Runner.runEnd r)))
   <-> (1 < size (sessions r))%nat) /\
  (In (CoverageReport (Totals.map (Runner.aggregate (sessions r))))
      (effects (Runner.runEnd r))
   <-> (1 < size (sessions r))%nat /\
       files (Totals.map (Runner.aggregate (sessions r))) <> []) /\
  (forall map : CoverageMap,
     In (CoverageReport map) (effects (Runner.runEnd r)) ->
     map = Totals.map (Runner.aggregate (sessions r))).
Proof.
  destruct (runEnd_effects r) as (_ & _ & Heffects).
  destruct (decide (1 < size (sessions r))%nat) as [Hsize|Hsize].
  - pose proof (runEnd_writes r Hsize) as Hspelled.
    clear Heffects. rewrite Hspelled. clear Hspelled.
    split; [intros; lia|]. split; [|split].
    + split; [auto|]. intros _. eexists. apply in_or_app. right.
      simpl. eauto.
    + rewrite in_app_iff, in_total_coverage_effects.
      split; [|tauto].
      intros [[Hfiles _]|Hin]; [auto|].
      simpl in Hin. intuition discriminate.
    + intros map. rewrite in_app_iff, in_total_coverage_effects.
      intros [[_ Hmap]|Hin]; [auto|].
      simpl in Hin. intuition discriminate.
  - rewrite Heffects. simpl. split; [auto|]. split; [|split].
    + split; [intros [rest []]|intros; lia].
    + split; [intros []|intros [Hlt _]; lia].
    + intros map [].
Qed.

(** C8. When [runEnd] writes the [TOTAL] line, it is red exactly when the
    number of failed tests over all sessions is positive or the fatal-error
    flag is set, and green otherwise; with no failed test and the flag set
    the line is red and ends with the fatal-error remark. *)
Theorem runEnd_verdict (r : Runner) :
  (1 < size (sessions r))%nat ->
  exists (colour : Color) (line : string),
    effects (Runner.runEnd r) =
      total_coverage_effects (Totals.map (Runner.aggregate (sessions r))) ++
      [Display bright; Foreground colour; Write line; Display reset; Write LF] /\
    (colour = red <->
     0 < sum_over Suite.numFailedTests (sessions r) \/ hasErrors r = true) /\
    (colour = green <->
     ~ (0 < sum_over Suite.numFailedTests (sessions r) \/ hasErrors r = true)) /\
    (sum_over Suite.numFailedTests (sessions r) = 0 ->
     hasErrors r = true ->
     colour = red /\ ends_with "; fatal error occurred" line).
Proof.
  intros Hsize.
  pose proof (runEnd_writes r Hsize) as Heffects.
  do 2 eexists. split; [exact Heffects|].
  destruct (Z.ltb_spec 0 (sum_over Suite.numFailedTests (sessions r)))
    as [Hfailed|Hfailed]; simpl.
  - split; [tauto|]. split; [split; [discriminate|tauto]|].
    intros; lia.
  - destruct (hasErrors r); simpl.
    + split; [tauto|]. split; [split; [discriminate|tauto]|].
      intros Hzero _. split; [reflexivity|].
      rewrite Hzero. simpl. unfold ends_with.
      rewrite <- !append_assoc. eexists. reflexivity.
    + split; [split; [discriminate|intros [?|?]; [lia|discriminate]]|].
      split; [split; [intros _ [?|?]; [lia|discriminate]|reflexivity]|].
      discriminate.
Qed.

End RunSummary.

Section Deprecations.
Context `{Collaborators}.

(** A message whose key was seen before is dropped. *)
Lemma deprecated_seen (message : DeprecationMessage.t) (r : Runner) :
  Runner.seen (_deprecationMessages r) (Runner.deprecation_key message) = true ->
  effects (Runner.deprecated message r) = [] /\
  final (Runner.deprecated message r) = r.
Proof.
  intros Hseen. unfold Runner.deprecated, bind at 1, this. simpl.
  rewrite Hseen. auto.
Qed.

(** A message whose key is new is rendered and its key recorded. *)
Lemma deprecated_new (message : DeprecationMessage.t) (r : Runner) :
  Runner.seen (_deprecationMessages r) (Runner.deprecation_key message) = false ->
  effects (Runner.deprecated message r) = deprecation_notice message /\
  final (Runner.deprecated message r) =
    set_deprecationMessages <[Runner.deprecation_key message := true]> r.
Proof.
  intros Hseen. unfold Runner.deprecated, bind at 1, this. simpl.
  rewrite Hseen. unfold deprecation_notice.
  destruct (truthy_string (DeprecationMessage.replacement message)),
    (truthy_string (DeprecationMessage.message message)); simpl; auto.
Qed.

Lemma seen_after_deprecated (message : DeprecationMessage.t) (r : Runner)
  (key : string) :
  Runner.seen (_deprecationMessages (final (Runner.deprecated message r))) key
  = Runner.seen (_deprecationMessages r) key
    || bool_decide (key = Runner.deprecation_key message).
Proof.
  destruct (Runner.seen (_deprecationMessages r) (Runner.deprecation_key message))
    eqn:Hseen.
  - destruct (deprecated_seen message r Hseen) as [_ ->].
    case_bool_decide as Hkey; [subst; now rewrite Hseen|now rewrite orb_false_r].
  - destruct (deprecated_new message r Hseen) as [_ ->]. simpl.
    unfold Runner.seen.
    case_bool_decide as Hkey.
    + subst. rewrite lookup_insert_eq. now rewrite orb_true_r.
    + rewrite lookup_insert_ne by congruence. now rewrite orb_false_r.
Qed.

(** The same message delivered a second time writes nothing, however many
    other events came in between. *)
Lemma deprecated_again (message : DeprecationMessage.t) (r : Runner) :
  effects (Runner.deprecated message (final (Runner.deprecated message r))) = [].
Proof.
  apply deprecated_seen. rewrite seen_after_deprecated.
  rewrite bool_decide_true by reflexivity. apply orb_true_r.
Qed.

End Deprecations.

Section FatalFlag.
Context `{Collaborators}.

Lemma forEach_emit (A : Type) (l : list A) (f : A -> Effect) (r : Runner) :
  forEach l (fun x => emit (f x)) r =
    {| completion := Normal tt; final := r; effects := List.map f l |}.
Proof.
  induction l as [|x l IH]; [reflexivity|].
  simpl. unfold bind. simpl. now rewrite IH.
Qed.

(** Every handler leaves the flag as it was, except [error] and the
    [suiteEnd] of a suite with an error, which set it. *)
Lemma handle_hasErrors (event : Runner.Event) (r : Runner) :
  hasErrors (final (Runner.handle event r)) = hasErrors r || raises event.
Proof.
  destruct event as [message|message|e|message| |server|suite|suite|test
                    |message| |message]; cbn [Runner.handle raises].
  - unfold Runner.coverage, bind, this. simpl.
    destruct (sessions r !! _); simpl; now rewrite orb_false_r.
  - rewrite orb_false_r.
    destruct (Runner.seen (_deprecationMessages r)
                (Runner.deprecation_key message)) eqn:Hseen.
    + now destruct (deprecated_seen message r Hseen) as [_ ->].
    + now destruct (deprecated_new message r Hseen) as [_ ->].
  - now rewrite orb_true_r.
  - unfold Runner.log. rewrite forEach_emit. simpl. now rewrite orb_false_r.
  - destruct (runEnd_effects r) as (-> & _). now rewrite orb_false_r.
  - now rewrite orb_false_r.
  - unfold Runner.suiteEnd.
    destruct (Suite.error suite); simpl; [now rewrite orb_true_r|].
    rewrite orb_false_r.
    destruct (Suite.hasParent suite); simpl; [reflexivity|].
    unfold bind at 1, this. simpl.
    destruct (sessions r !! _) as [session|]; simpl.
    + now destruct (Session.coverage session).
    + now destruct (serveOnly r).
  - unfold Runner.suiteStart. rewrite orb_false_r.
    destruct (Suite.hasParent suite); simpl; [reflexivity|].
    now destruct (truthy_string (Suite.sessionId suite)).
  - unfold Runner.testEnd, bind at 1, this. simpl. rewrite orb_false_r.
    destruct (Test.error test); simpl; [reflexivity|].
    destruct (truthy_string (Test.skipped test));
      [now destruct (hideSkipped r)|now destruct (hidePassed r)].
  - unfold Runner.tunnelDownloadProgress. rewrite orb_false_r.
    now destruct (TunnelMessage.progress message).
  - now rewrite orb_false_r.
  - now rewrite orb_false_r.
Qed.

Lemma deliver_hasErrors (events : list Runner.Event) (r : Runner) :
  hasErrors (fst (Runner.deliver events r))
  = hasErrors r || existsb raises events.
Proof.
  revert r. induction events as [|event events IH]; intros r; simpl.
  - now rewrite orb_false_r.
  - specialize (IH (final (Runner.handle event r))).
    destruct (Runner.deliver events (final (Runner.handle event r)))
      as [r' rest]. simpl in *.
    now rewrite IH, handle_hasErrors, orb_assoc.
Qed.

(** C6. The fatal-error flag is false in a new reporter; no handler
    clears it; and once a run-level error or the end of a suite with an
    error has been delivered, it is set after every later event. *)
Theorem hasErrors_sticky :
  (forall serveOnly hidePassed hideSkipped : bool,
     hasErrors (final (Runner.constructor serveOnly hidePassed hideSkipped))
     = false) /\
  (forall (event : Runner.Event) (r : Runner),
     hasErrors r = true ->
     hasErrors (final (Runner.handle event r)) = true) /\
  (forall (event : Runner.Event) (r : Runner),
     raises event = true ->
     hasErrors (final (Runner.handle event r)) = true) /\
  (forall (before after : list Runner.Event) (event : Runner.Event)
          (r : Runner),
     raises event = true ->
     hasErrors (fst (Runner.deliver (before ++ event :: after) r)) = true).
Proof.
  split; [reflexivity|]. split; [|split].
  - intros event r Hset. now rewrite handle_hasErrors, Hset.
  - intros event r Hraises. rewrite handle_hasErrors, Hraises.
    apply orb_true_r.
  - intros before after event r Hraises.
    rewrite deliver_hasErrors, existsb_app. simpl. rewrite Hraises.
    simpl. now rewrite !orb_true_r.
Qed.

End FatalFlag.

(** ** The earlier reporter, compared *)

Section LegacyProperties.
Context `{Collaborators}.

(** The earlier [coverage] ignores the coverage of the runner host, which
    has no session identifier. *)
Lemma legacy_coverage_host_ignored (sessionId : option string)
  (coverage : CoverageMap) (r : Legacy.Runner) :
  truthy_string sessionId = false ->
  Legacy.coverage Legacy.runner sessionId coverage r =
    {| Legacy.completion := Normal tt; Legacy.final := r;
       Legacy.effects := [] |}.
Proof. intros Hhost. unfold Legacy.coverage. now rewrite Hhost. Qed.

(** For a session identifier that was never registered it throws, as the
    later handler does. *)
Lemma legacy_coverage_unknown_session (mode : Legacy.Mode) (sessionId : string)
  (coverage : CoverageMap) (r : Legacy.Runner) :
  sessionId <> "" ->
  ordinary_key sessionId = true ->
  Legacy.sessions r !! sessionId = None ->
  Legacy.completion (Legacy.coverage mode (Some sessionId) coverage r) =
    Throw (TypeError "Cannot read property 'coverage' of undefined").
Proof.
  intros Hid _ Hnone. unfold Legacy.coverage. simpl.
  destruct (String.eqb_spec sessionId ""); [contradiction|]. simpl.
  rewrite orb_true_r, Hnone. reflexivity.
Qed.

(** X18. The earlier [runEnd] writes the [TOTAL] line whatever the number
    of sessions, with the sums over the sessions in it and the same rule
    for its colour. *)
Lemma legacy_runEnd_always_writes (r : Legacy.Runner) :
  exists report : list Legacy.Effect,
    Legacy.effects (Legacy.runEnd r) =
      Legacy.Write LF :: report ++
      [Legacy.Display bright;
       Legacy.Background
         (if (0 <? sum_over Suite.numFailedTests (Legacy.sessions r))
             || Legacy.hasErrors r
          then red else green);
       Legacy.Write
         ("TOTAL: tested "
            +:+ string_of_number (Z.of_nat (size (Legacy.sessions r)))
            +:+ " platforms, "
            +:+ string_of_number (sum_over Suite.numFailedTests (Legacy.sessions r))
            +:+ "/"
            +:+ string_of_number (sum_over Suite.numTests (Legacy.sessions r))
            +:+ " tests failed"
            +:+ skipped_suffix (sum_over Suite.numSkippedTests (Legacy.sessions r))
            +:+ fatal_suffix
                  (Legacy.hasErrors r
                   && negb (truthy_number
                              (sum_over Suite.numFailedTests (Legacy.sessions r)))));
       Legacy.Display reset;
       Legacy.Write LF].
Proof.
  destruct (aggregate_counts (Legacy.sessions r)) as (Ht & Hf & Hs).
  unfold Legacy.runEnd. simpl. rewrite Ht, Hf, Hs, total_line_spelled.
  eexists. reflexivity.
Qed.

(** The earlier [suiteStart] updates the sessions map as the later one. *)
Lemma legacy_suiteStart_sessions (suite : Suite.t) (l : Legacy.Runner)
  (r : Runner) :
  Legacy.sessions l = sessions r ->
  Legacy.sessions (Legacy.final (Legacy.suiteStart suite l))
  = sessions (final (Runner.suiteStart suite r)).
Proof.
  intros Hsame. unfold Legacy.suiteStart, Runner.suiteStart.
  destruct (Suite.hasParent suite); simpl; [exact Hsame|].
  destruct (truthy_string (Suite.sessionId suite)); simpl; now rewrite Hsame.
Qed.

End LegacyProperties.

(** ** Concrete runs *)

(** C1. A [coverage] event for a session that was never started: no entry
    is registered under its identifier, and the handler ends by a
    [TypeError] instead of ignoring the event or reporting it. *)
Theorem coverage_for_unstarted_session_throws :
  sessions fresh !! default "" (Some "A") = None /\
  completion
    (Runner.coverage
       {| CoverageMessage.sessionId := Some "A";
          CoverageMessage.coverage := ["a.js"] |}
       fresh)
  = Throw (TypeError "Cannot read property 'coverage' of undefined").
Proof. split; reflexivity. Qed.

(** The sibling handler [suiteEnd] checks for the missing session and
    reports it. *)
Example suiteEnd_for_unstarted_session_reports :
  Runner.suiteEnd suite_A fresh =
    {| completion := Normal tt;
       final := fresh;
       effects :=
         [Display bright;
          Foreground yellow;
          Write "BUG: suiteEnd was received for invalid session A";
          Display reset;
          Write LF] |}.
Proof. reflexivity. Qed.

(** C2, refuted as stated. The root suite [suite_with_failed_test] counts
    no failed test and has a test below it that carries an error; the
    traversal answers false, and the summary line is green and has no
    fatal-error remark. *)
Lemma suiteEnd_failed_test_is_not_fatal :
  Suite.numFailedTests suite_with_failed_test = 0 /\
  Descendant failed_test_node (Suite.SuiteNode suite_with_failed_test) /\
  failed_test failed_test_node /\
  truthy (Runner.hasError (Suite.SuiteNode suite_with_failed_test)) = false /\
  effects
    (Runner.suiteEnd suite_with_failed_test
       (final (Runner.suiteStart suite_with_failed_test fresh)))
  = [Write "No unit test coverage for main";
     Display reset;
     Write LF;
     Display bright;
     Foreground green;
     Write "main: 0/1 tests failed";
     Display reset;
     Write LF].
Proof.
  split; [reflexivity|]. split; [apply Descendant_child; simpl; auto|].
  split; [simpl; discriminate|]. split; reflexivity.
Qed.

Lemma suiteEnd_fatal_when_descendant_suite_failed_witness :
  truthy (Runner.hasError (Suite.SuiteNode suite_above_failed)) = true /\
  exists summary : string,
    ends_with "; fatal error occurred" summary /\
    effects
      (Runner.suiteEnd suite_above_failed
         (final (Runner.suiteStart suite_above_failed fresh)))
    = session_coverage_effects suite_above_failed
        {| Session.coverage := None; Session.suite := suite_above_failed |} ++
      [Display bright; Foreground red; Write summary; Display reset; Write LF].
Proof.
  apply (suiteEnd_fatal_when_descendant_suite_failed suite_above_failed
           (final (Runner.suiteStart suite_above_failed fresh))
           {| Session.coverage := None; Session.suite := suite_above_failed |}
           (Suite.SuiteNode nested_failed)).
  - reflexivity.
  - reflexivity.
  - reflexivity.
  - apply Descendant_child. simpl. auto.
  - simpl. discriminate.
Defined.

(** The totals of the two sessions [suite_A] and [suite_B]. *)
Example runEnd_two_sessions :
  effects (Runner.runEnd two_sessions) =
    [Display bright;
     Foreground red;
     Write "TOTAL: tested 2 platforms, 2/15 tests failed (1 skipped)";
     Display reset;
     Write LF].
Proof. reflexivity. Qed.

Lemma runEnd_totals_are_sums_witness :
  (1 < size (sessions two_sessions))%nat /\
  Totals.numTests (Runner.aggregate (sessions two_sessions)) = 15 /\
  sum_over Suite.numTests (sessions two_sessions) = 15 /\
  effects (Runner.runEnd two_sessions) =
    [Display bright;
     Foreground red;
     Write "TOTAL: tested 2 platforms, 2/15 tests failed (1 skipped)";
     Display reset;
     Write LF].
Proof.
  assert (Hsize : (1 < size (sessions two_sessions))%nat)
    by (vm_compute; lia).
  split; [exact Hsize|].
  destruct (runEnd_totals_are_sums two_sessions) as (Ht & _ & _ & Hline).
  split; [reflexivity|]. split; [rewrite <- Ht; reflexivity|].
  exact (Hline Hsize).
Defined.

(** C4, refuted as stated. Two sessions are registered and neither has
    coverage: [runEnd] writes the [TOTAL] line and no coverage report. *)
Lemma runEnd_without_coverage_writes_no_report :
  (1 < size (sessions two_sessions))%nat /\
  existsb is_coverage_report (effects (Runner.runEnd two_sessions)) = false /\
  In (Write "TOTAL: tested 2 platforms, 2/15 tests failed (1 skipped)")
     (effects (Runner.runEnd two_sessions)).
Proof.
  split; [vm_compute; lia|]. split; [reflexivity|].
  rewrite runEnd_two_sessions. simpl. auto.
Qed.

Lemma runEnd_gated_by_sessions_witness :
  (size (sessions fresh) <= 1)%nat /\
  effects (Runner.runEnd fresh) = [].
Proof.
  assert (Hsize : (size (sessions fresh) <= 1)%nat) by (vm_compute; lia).
  split; [exact Hsize|].
  exact (proj1 (runEnd_gated_by_sessions fresh) Hsize).
Defined.

(** C5, refuted as stated. [nested_failed] has a parent; its [suiteEnd]
    writes the failure and sets the flag. *)
Lemma suiteEnd_nested_with_error_acts :
  Suite.hasParent nested_failed = true /\
  effects (Runner.suiteEnd nested_failed fresh) =
    [Foreground red;
     Write ("Suite main - inner FAILED" +:+ LF);
     Write "before failed";
     Display reset;
     Write LF] /\
  hasErrors fresh = false /\
  hasErrors (final (Runner.suiteEnd nested_failed fresh)) = true.
Proof. repeat split. Qed.

Lemma suiteEnd_nested_without_error_witness :
  Suite.hasParent nested_passed = true /\
  Suite.error nested_passed = None /\
  effects (Runner.suiteEnd nested_passed two_sessions) = [] /\
  final (Runner.suiteEnd nested_passed two_sessions) = two_sessions.
Proof.
  split; [reflexivity|]. split; [reflexivity|].
  exact (proj2 (suiteEnd_nested_without_error nested_passed two_sessions
                  eq_refl eq_refl)).
Defined.

Lemma hasErrors_sticky_witness :
  hasErrors two_sessions = false /\
  raises (Runner.SuiteEnd nested_failed) = true /\
  hasErrors
    (fst (Runner.deliver
            ([Runner.TestEnd passed_test]
               ++ Runner.SuiteEnd nested_failed
               :: [Runner.SuiteEnd suite_A; Runner.RunEnd])
            two_sessions))
  = true.
Proof.
  split; [reflexivity|]. split; [reflexivity|].
  exact (proj2 (proj2 (proj2 hasErrors_sticky))
           [Runner.TestEnd passed_test]
           [Runner.SuiteEnd suite_A; Runner.RunEnd]
           (Runner.SuiteEnd nested_failed) two_sessions eq_refl).
Defined.

(** C7. [notice_1] and [notice_2] are different messages with the same key:
    the first is rendered, the second is dropped. *)
Theorem deprecated_distinct_triples_collide :
  notice_1 <> notice_2 /\
  Runner.deprecation_key notice_1 = Runner.deprecation_key notice_2 /\
  effects (Runner.deprecated notice_1 fresh) =
    [Foreground yellow;
     Write "⚠︎ a|b is deprecated. ";
     Write "Use c instead.";
     Write LF;
     Display reset] /\
  effects (Runner.deprecated notice_2 (final (Runner.deprecated notice_1 fresh)))
  = [].
Proof.
  split; [discriminate|]. repeat split.
Qed.

Lemma runEnd_verdict_witness :
  (1 < size (sessions two_sessions_after_error))%nat /\
  sum_over Suite.numFailedTests (sessions two_sessions_after_error) = 0 /\
  hasErrors two_sessions_after_error = true /\
  exists (colour : Color) (line : string),
    effects (Runner.runEnd two_sessions_after_error) =
      total_coverage_effects
        (Totals.map (Runner.aggregate (sessions two_sessions_after_error))) ++
      [Display bright; Foreground colour; Write line; Display reset; Write LF] /\
    colour = red /\
    ends_with "; fatal error occurred" line.
Proof.
  assert (Hsize : (1 < size (sessions two_sessions_after_error))%nat)
    by (vm_compute; lia).
  split; [exact Hsize|]. split; [reflexivity|]. split; [reflexivity|].
  destruct (runEnd_verdict two_sessions_after_error Hsize)
    as (colour & line & Heffects & _ & _ & Hfatal).
  exists colour, line. split; [exact Heffects|].
  exact (Hfatal eq_refl eq_refl).
Defined.

(** The same run, evaluated. *)
Example runEnd_after_error :
  effects (Runner.runEnd two_sessions_after_error) =
    [Display bright;
     Foreground red;
     Write "TOTAL: tested 2 platforms, 0/15 tests failed; fatal error occurred";
     Display reset;
     Write LF].
Proof. reflexivity. Qed.

Lemma suiteStart_registers_root_witness :
  Suite.hasParent nested_passed = true /\
  sessions (final (Runner.suiteStart nested_passed two_sessions))
  = sessions two_sessions /\
  Suite.hasParent suite_C = false /\
  default "" (Suite.sessionId suite_C) <> "__proto__" /\
  sessions (final (Runner.suiteStart suite_C two_sessions)) !! "A"
  = Some {| Session.coverage := None; Session.suite := suite_C |} /\
  "B" <> default "" (Suite.sessionId suite_C) /\
  sessions (final (Runner.suiteStart suite_C two_sessions)) !! "B"
  = sessions two_sessions !! "B".
Proof.
  pose proof (suiteStart_registers_root nested_passed two_sessions)
    as (_ & Hnested & _).
  pose proof (suiteStart_registers_root suite_C two_sessions)
    as (_ & _ & Hroot).
  assert (Hkey : default "" (Suite.sessionId suite_C) <> "__proto__")
    by discriminate.
  assert (Hother : "B" <> default "" (Suite.sessionId suite_C))
    by discriminate.
  split; [reflexivity|]. split; [exact (Hnested eq_refl)|].
  split; [reflexivity|]. split; [exact Hkey|].
  split; [exact (proj1 (Hroot eq_refl Hkey))|].
  split; [exact Hother|]. exact (proj2 (Hroot eq_refl Hkey) "B" Hother).
Defined.

Lemma testEnd_gating_witness :
  effects (Runner.testEnd passed_test quiet) = [] /\
  effects (Runner.testEnd skipped_test quiet) = [] /\
  effects (Runner.testEnd errored_test quiet) =
    [Foreground red;
     Write "× main - loads";
     Write " (3s)";
     Write LF;
     Display reset;
     Foreground red;
     Write "boom";
     Display reset;
     Write LF].
Proof.
  split; [exact (proj1 (testEnd_gating passed_test quiet)
                   eq_refl eq_refl eq_refl)|].
  split; [exact (proj1 (proj2 (testEnd_gating skipped_test quiet))
                   eq_refl eq_refl eq_refl)|].
  exact (proj2 (proj2 (testEnd_gating errored_test quiet)) "boom" eq_refl).
Defined.

(** ** The reporter over sequences of events *)

Section Frames.
Context `{Collaborators}.

(** What each handler leaves in the fields of the reporter. *)
Lemma handle_final (event : Runner.Event) (r : Runner) :
  final (Runner.handle event r) = after event r.
Proof.
  destruct event as [message|message|e|message| |server|suite|suite|test
                    |message| |message]; cbn [Runner.handle after].
  - unfold Runner.coverage, bind, this. simpl.
    destruct (sessions r !! _) as [session|]; simpl; [|reflexivity].
    now destruct (Session.coverage session).
  - destruct (Runner.seen (_deprecationMessages r)
                (Runner.deprecation_key message)) eqn:Hseen.
    + now destruct (deprecated_seen message r Hseen) as [_ ->].
    + now destruct (deprecated_new message r Hseen) as [_ ->].
  - reflexivity.
  - unfold Runner.log. now rewrite forEach_emit.
  - now destruct (runEnd_effects r) as (-> & _).
  - reflexivity.
  - unfold Runner.suiteEnd.
    destruct (Suite.error suite); simpl; [reflexivity|].
    destruct (Suite.hasParent suite); simpl; [reflexivity|].
    unfold bind at 1, this. simpl.
    destruct (sessions r !! _) as [session|]; simpl.
    + now destruct (Session.coverage session).
    + now destruct (serveOnly r).
  - unfold Runner.suiteStart.
    destruct (Suite.hasParent suite); simpl; [reflexivity|].
    now destruct (truthy_string (Suite.sessionId suite)).
  - unfold Runner.testEnd, bind at 1, this. simpl.
    destruct (Test.error test); simpl; [reflexivity|].
    destruct (truthy_string (Test.skipped test));
      [now destruct (hideSkipped r)|now destruct (hidePassed r)].
  - unfold Runner.tunnelDownloadProgress.
    now destruct (TunnelMessage.progress message).
  - reflexivity.
  - reflexivity.
Qed.

Lemma deliver_cons (event : Runner.Event) (events : list Runner.Event)
  (r : Runner) :
  fst (Runner.deliver (event :: events) r)
  = fst (Runner.deliver events (after event r)).
Proof.
  simpl. rewrite handle_final.
  now destruct (Runner.deliver events (after event r)).
Qed.

Lemma deliver_app (events later : list Runner.Event) (r : Runner) :
  fst (Runner.deliver (events ++ later) r)
  = fst (Runner.deliver later (fst (Runner.deliver events r))).
Proof.
  revert r. induction events as [|event events IH]; intros r; [reflexivity|].
  rewrite <- app_comm_cons, !deliver_cons. apply IH.
Qed.

Lemma after_configuration (event : Runner.Event) (r : Runner) :
  hidePassed (after event r) = hidePassed r /\
  hideSkipped (after event r) = hideSkipped r /\
  serveOnly (after event r) = serveOnly r.
Proof.
  destruct event; simpl; auto.
  - now destruct (sessions r !! _).
  - now destruct (Runner.seen _ _).
  - now destruct (truthy_object _).
  - now destruct (Suite.hasParent _).
Qed.

(** X1. No sequence of events changes the configuration of the reporter:
    [hidePassed], [hideSkipped] and [serveOnly] stay as the constructor set
    them. *)
Theorem configuration_is_constant (events : list Runner.Event) (r : Runner) :
  hidePassed (fst (Runner.deliver events r)) = hidePassed r /\
  hideSkipped (fst (Runner.deliver events r)) = hideSkipped r /\
  serveOnly (fst (Runner.deliver events r)) = serveOnly r.
Proof.
  revert r. induction events as [|event events IH]; intros r; [now simpl|].
  rewrite deliver_cons.
  destruct (IH (after event r)) as (-> & -> & ->).
  apply after_configuration.
Qed.

Lemma after_domain (event : Runner.Event) (r : Runner) :
  dom (sessions (after event r))
  = dom (sessions r) ∪ from_option singleton ∅ (started event).
Proof.
  destruct event as [message|message|e|message| |server|suite|suite|test
                    |message| |message]; simpl;
    try (now rewrite union_empty_r_L).
  - destruct (sessions r !! _) as [session|] eqn:Hsession; simpl;
      rewrite union_empty_r_L; [|reflexivity].
    rewrite dom_insert_L. apply subseteq_union_1_L.
    apply singleton_subseteq_l. eapply elem_of_dom_2. exact Hsession.
  - destruct (Runner.seen _ _); simpl; now rewrite union_empty_r_L.
  - destruct (truthy_object _); simpl; now rewrite union_empty_r_L.
  - destruct (Suite.hasParent suite); simpl; [now rewrite union_empty_r_L|].
    rewrite dom_insert_L. apply union_comm_L.
Qed.

(** X2. The session identifiers under which the sessions object holds an
    entry after a sequence of events are those of before together with the
    identifiers of the parent-less suites that were started, when none of
    these is ["__proto__"]: no event removes a session, and only
    [suiteStart] adds one. *)
Theorem registered_sessions (events : list Runner.Event) (r : Runner) :
  Forall (fun key => key <> "__proto__") (omap started events) ->
  dom (sessions (fst (Runner.deliver events r)))
  = dom (sessions r) ∪ list_to_set (omap started events).
Proof.
  intros _. revert r. induction events as [|event events IH]; intros r.
  - simpl. now rewrite union_empty_r_L.
  - rewrite deliver_cons, IH, after_domain. simpl.
    destruct (started event) as [key|]; simpl.
    + now rewrite union_assoc_L.
    + now rewrite union_empty_r_L.
Qed.

Lemma after_suite (key : string) (event : Runner.Event) (r : Runner) :
  Session.suite <$> sessions (after event r) !! key
  = match starts key event with
    | Some suite => Some suite
    | None => Session.suite <$> sessions r !! key
    end.
Proof.
  destruct event as [message|message|e|message| |server|suite|suite|test
                    |message| |message]; simpl; try reflexivity.
  - destruct (sessions r !! or_string _ _) as [session|] eqn:Hsession;
      simpl; [|reflexivity].
    destruct (decide (or_string (CoverageMessage.sessionId message) "" = key))
      as [<-|Hkey].
    + now rewrite lookup_insert_eq, Hsession.
    + now rewrite lookup_insert_ne.
  - now destruct (Runner.seen _ _).
  - now destruct (truthy_object _).
  - destruct (Suite.hasParent suite); simpl; [reflexivity|].
    destruct (String.eqb_spec (or_string (Suite.sessionId suite) "") key)
      as [<-|Hkey].
    + now rewrite lookup_insert_eq.
    + now rewrite lookup_insert_ne.
Qed.

(** X3. Last start wins: after a sequence of events, the suite of the
    session registered under a key is the parent-less suite that was
    started last under that key, or the suite registered before when none
    was started; coverage events never replace the suite. *)
Theorem session_suite_is_last_started (key : string)
  (events : list Runner.Event) (r : Runner) :
  Session.suite <$> sessions (fst (Runner.deliver events r)) !! key
  = last_started key events (Session.suite <$> sessions r !! key).
Proof.
  revert r. induction events as [|event events IH]; intros r; [reflexivity|].
  rewrite deliver_cons, IH, after_suite. simpl.
  now destruct (starts key event).
Qed.

End Frames.

Section SessionsOverEvents.
Context `{Collaborators}.

Lemma deliver_effects_cons (event : Runner.Event) (events : list Runner.Event)
  (r : Runner) :
  snd (Runner.deliver (event :: events) r)
  = effects (Runner.handle event r) ++ snd (Runner.deliver events (after event r)).
Proof.
  simpl. rewrite handle_final.
  now destruct (Runner.deliver events (after event r)).
Qed.

Lemma coverage_silent (message : CoverageMessage.t) (r : Runner) :
  effects (Runner.coverage message r) = [].
Proof.
  unfold Runner.coverage, bind, this. simpl.
  now destruct (sessions r !! _).
Qed.

Lemma merged_cons (before : option CoverageMap) (coverage : CoverageMap)
  (data : list CoverageMap) :
  merged before (coverage :: data)
  = merged (Some (merge (default createCoverageMap before) coverage)) data.
Proof. now destruct data. Qed.

(** X4. The coverage events of a registered session accumulate: after one
    event for each item of [data], the session holds the items merged in
    their order of arrival into the map it had (a new map when it had
    none) and keeps its suite; the other sessions are as before and
    nothing is written. *)
Theorem coverage_accumulates (sessionId : option string)
  (data : list CoverageMap) (r : Runner) (session : Session.t) :
  sessions r !! or_string sessionId "" = Some session ->
  sessions (fst (Runner.deliver (coverage_events sessionId data) r))
    !! or_string sessionId ""
  = Some {| Session.coverage := merged (Session.coverage session) data;
            Session.suite := Session.suite session |} /\
  (forall other : string,
     other <> or_string sessionId "" ->
     sessions (fst (Runner.deliver (coverage_events sessionId data) r)) !! other
     = sessions r !! other) /\
  snd (Runner.deliver (coverage_events sessionId data) r) = [].
Proof.
  revert r session.
  induction data as [|coverage data IH]; intros r session Hsession.
  - simpl. rewrite Hsession. destruct session. auto.
  - unfold coverage_events. rewrite map_cons. fold (coverage_events sessionId data).
    rewrite deliver_cons, deliver_effects_cons, merged_cons.
    cbn [Runner.handle after CoverageMessage.sessionId CoverageMessage.coverage].
    rewrite coverage_silent, Hsession. simpl.
    edestruct (IH (set_sessions
                     <[or_string sessionId "" :=
                         {| Session.coverage :=
                              Some (merge (default createCoverageMap
                                             (Session.coverage session))
                                          coverage);
                            Session.suite := Session.suite session |}]> r))
      as (Hkey & Hother & Hsilent);
      [simpl; apply lookup_insert_eq|].
    simpl in Hkey. rewrite Hkey, Hsilent. repeat split.
    intros other Hne. rewrite Hother by exact Hne.
    simpl. now rewrite lookup_insert_ne.
Qed.



Lemma deliver_unregistered (key : string) (events : list Runner.Event)
  (r : Runner) :
  sessions r !! key = None ->
  ~ In key (omap started events) ->
  sessions (fst (Runner.deliver events r)) !! key = None.
Proof.
  revert r. induction events as [|event events IH]; intros r Hkey Hnot;
    [exact Hkey|].
  rewrite deliver_cons. simpl in Hnot. apply IH.
  - apply not_elem_of_dom. rewrite after_domain.
    apply not_elem_of_union. split; [now apply not_elem_of_dom|].
    destruct (started event) as [k|]; simpl in *.
    + apply not_elem_of_singleton. intros ->. apply Hnot. now left.
    + apply not_elem_of_empty.
  - destruct (started event); simpl in Hnot; tauto.
Qed.

Lemma deliver_serveOnly (events : list Runner.Event) (r : Runner) :
  serveOnly (fst (Runner.deliver events r)) = serveOnly r.
Proof.
  revert r. induction events as [|event events IH]; intros r; [reflexivity|].
  rewrite deliver_cons, IH. apply after_configuration.
Qed.

(** The effects of [suiteEnd] for a root suite without an error of its own
    whose session is registered, with the line spelled out. *)
Lemma suiteEnd_root_spelled (suite : Suite.t) (r : Runner) (session : Session.t) :
  Suite.error suite = None ->
  Suite.hasParent suite = false ->
  sessions r !! or_string (Suite.sessionId suite) "" = Some session ->
  effects (Runner.suiteEnd suite r)
  = session_coverage_effects suite session ++ session_summary_effects suite.
Proof.
  intros Herror Hparent Hsession.
  destruct (suiteEnd_root_effects suite r session Herror Hparent Hsession)
    as [-> _].
  unfold session_summary_effects.
  now rewrite (hasError_root_boolean suite Herror), suite_summary_spelled.
Qed.


(** X6. A parent-less suite without an error that ends although no
    parent-less suite was started under its session identifier since the
    reporter was created is reported by the diagnostic for an invalid
    session and by nothing else, when the identifier is a key that the
    prototype chain does not answer; in serve-only mode nothing is
    written. *)
Theorem suiteEnd_orphan (finish : Suite.t) (events : list Runner.Event)
  (serveOnly' hidePassed' hideSkipped' : bool) :
  Suite.hasParent finish = false ->
  Suite.error finish = None ->
  ordinary_key (or_string (Suite.sessionId finish) "") = true ->
  ~ In (or_string (Suite.sessionId finish) "") (omap started events) ->
  effects
    (Runner.suiteEnd finish
       (fst (Runner.deliver events
               (final (Runner.constructor serveOnly' hidePassed' hideSkipped')))))
  = if serveOnly' then []
    else [Display bright;
          Foreground yellow;
          Write ("BUG: suiteEnd was received for invalid session "
                   +:+ string_of_optional (Suite.sessionId finish));
          Display reset;
          Write LF].
Proof.
  intros Hparent Herror _ Hnot.
  unfold Runner.suiteEnd. rewrite Herror, Hparent. unfold bind at 1, this.
  simpl.
  rewrite (deliver_unregistered _ events _ (lookup_empty _) Hnot).
  rewrite deliver_serveOnly. simpl. now destruct serveOnly'.
Qed.

(** X7. The summary of a session: for a parent-less suite without an error
    of its own whose session is registered, [suiteEnd] changes nothing in
    the reporter and writes the coverage of the session followed by the
    line [<name>: <failed>/<total> tests failed], with the number of
    skipped tests when it is not zero and the fatal-error remark when the
    traversal finds an error; the line is red when a test failed or the
    traversal finds an error, and green otherwise. *)
Theorem suiteEnd_session_summary (suite : Suite.t) (r : Runner)
  (session : Session.t) :
  Suite.error suite = None ->
  Suite.hasParent suite = false ->
  sessions r !! or_string (Suite.sessionId suite) "" = Some session ->
  completion (Runner.suiteEnd suite r) = Normal tt /\
  final (Runner.suiteEnd suite r) = r /\
  effects (Runner.suiteEnd suite r)
  = match Session.coverage session with
    | Some coverage => [Write LF; CoverageReport coverage]
    | None =>
        [Write ("No unit test coverage for " +:+ Suite.name suite);
         Display reset;
         Write LF]
    end ++
    [Display bright;
     Foreground
       (if truthy_number (Suite.numFailedTests suite)
           || truthy (Runner.hasError (Suite.SuiteNode suite))
        then red else green);
     Write (Suite.name suite +:+ ": "
              +:+ string_of_number (Suite.numFailedTests suite) +:+ "/"
              +:+ string_of_number (Suite.numTests suite) +:+ " tests failed"
              +:+ (if Suite.numSkippedTests suite =? 0 then ""
                   else " (" +:+ string_of_number (Suite.numSkippedTests suite)
                          +:+ " skipped)")
              +:+ (if truthy (Runner.hasError (Suite.SuiteNode suite))
                   then "; fatal error occurred" else ""));
     Display reset;
     Write LF].
Proof.
  intros Herror Hparent Hsession.
  pose proof (suiteEnd_root_spelled suite r session Herror Hparent Hsession)
    as Heffects.
  destruct (suiteEnd_root_effects suite r session Herror Hparent Hsession)
    as [_ Hfinal].
  split; [|split; [exact Hfinal|]].
  - unfold Runner.suiteEnd. rewrite Herror, Hparent.
    unfold bind at 1, this. simpl. rewrite Hsession.
    now destruct (Session.coverage session).
  - rewrite Heffects.
    unfold session_coverage_effects, session_summary_effects,
      skipped_suffix, fatal_suffix, truthy_number.
    now destruct (Suite.numSkippedTests suite =? 0).
Qed.

End SessionsOverEvents.

Section Exceptions.
Context `{Collaborators}.

(** X8. For session identifiers that the prototype chain does not answer,
    a handler ends by an exception in two cases only: [coverage] for a
    session that is not registered and [tunnelDownloadProgress] for a
    message without [progress]. The exception is a [TypeError], and the
    handler then has written nothing and assigned no field. Every other
    event is handled to its end. *)
Theorem handle_completion (event : Runner.Event) (r : Runner) :
  ordinary_event event = true ->
  (throws event r = false -> completion (Runner.handle event r) = Normal tt) /\
  (throws event r = true ->
   (exists what : string,
      completion (Runner.handle event r) = Throw (TypeError what)) /\
   final (Runner.handle event r) = r /\
   effects (Runner.handle event r) = []).
Proof.
  destruct event as [message|message|e|message| |server|suite|suite|test
                    |message| |message];
    intros _;
    cbn [Runner.handle throws]; (split; [intros Hthrows|intros Hthrows]);
    try discriminate.
  - unfold Runner.coverage, bind, this. simpl.
    destruct (sessions r !! _); [reflexivity|].
    rewrite bool_decide_false in Hthrows by (intros [? ?]; discriminate).
    discriminate.
  - unfold Runner.coverage, bind, this. simpl.
    destruct (sessions r !! _) as [session|].
    + rewrite bool_decide_true in Hthrows by eauto. discriminate.
    + simpl. eauto.
  - unfold Runner.deprecated, bind at 1, this. simpl.
    destruct (Runner.seen _ _); [reflexivity|].
    now destruct (truthy_string (DeprecationMessage.replacement message)),
      (truthy_string (DeprecationMessage.message message)).
  - reflexivity.
  - unfold Runner.log. now rewrite forEach_emit.
  - now destruct (runEnd_effects r) as (_ & -> & _).
  - reflexivity.
  - unfold Runner.suiteEnd.
    destruct (Suite.error suite); [reflexivity|].
    destruct (Suite.hasParent suite); [reflexivity|].
    unfold bind at 1, this. simpl.
    destruct (sessions r !! _) as [session|].
    + now destruct (Session.coverage session).
    + now destruct (serveOnly r).
  - unfold Runner.suiteStart.
    destruct (Suite.hasParent suite); [reflexivity|]. simpl.
    now destruct (truthy_string (Suite.sessionId suite)).
  - unfold Runner.testEnd, bind at 1, this. simpl.
    destruct (Test.error test); [reflexivity|].
    destruct (truthy_string (Test.skipped test));
      [now destruct (hideSkipped r)|now destruct (hidePassed r)].
  - unfold Runner.tunnelDownloadProgress.
    destruct (TunnelMessage.progress message); [reflexivity|].
    rewrite bool_decide_false in Hthrows by (intros [? ?]; discriminate).
    discriminate.
  - unfold Runner.tunnelDownloadProgress.
    destruct (TunnelMessage.progress message).
    + rewrite bool_decide_true in Hthrows by eauto. discriminate.
    + simpl. eauto.
  - reflexivity.
  - reflexivity.
Qed.

End Exceptions.

Section DeprecationsOverEvents.
Context `{Collaborators}.

Lemma after_seen (key : string) (event : Runner.Event) (r : Runner) :
  Runner.seen (_deprecationMessages (after event r)) key
  = Runner.seen (_deprecationMessages r) key || deprecates key event.
Proof.
  destruct event as [message|message|e|message| |server|suite|suite|test
                    |message| |message]; simpl;
    try (now rewrite orb_false_r).
  - destruct (sessions r !! _); simpl; now rewrite orb_false_r.
  - destruct (Runner.seen (_deprecationMessages r)
                (Runner.deprecation_key message)) eqn:Hseen.
    + destruct (String.eqb_spec (Runner.deprecation_key message) key)
        as [<-|Hkey]; [now rewrite Hseen|now rewrite orb_false_r].
    + simpl. unfold Runner.seen at 1.
      destruct (String.eqb_spec (Runner.deprecation_key message) key)
        as [<-|Hkey].
      * rewrite lookup_insert_eq. now rewrite orb_true_r.
      * rewrite lookup_insert_ne by exact Hkey. now rewrite orb_false_r.
  - destruct (truthy_object _); simpl; now rewrite orb_false_r.
  - destruct (Suite.hasParent suite); simpl; now rewrite orb_false_r.
Qed.

Lemma deliver_seen (key : string) (events : list Runner.Event) (r : Runner) :
  Runner.seen (_deprecationMessages (fst (Runner.deliver events r))) key
  = Runner.seen (_deprecationMessages r) key || existsb (deprecates key) events.
Proof.
  revert r. induction events as [|event events IH]; intros r; simpl existsb.
  - simpl. now rewrite orb_false_r.
  - rewrite deliver_cons, IH, after_seen. now rewrite orb_assoc.
Qed.

(** X9. A deprecation message is rendered at most once in a run: once it
    was delivered, the same message delivered again writes nothing and
    assigns nothing, whatever events came before and in between. *)
Theorem deprecated_at_most_once (message : DeprecationMessage.t)
  (before between : list Runner.Event) (r : Runner) :
  effects
    (Runner.deprecated message
       (fst (Runner.deliver (before ++ Runner.Deprecated message :: between) r)))
  = [] /\
  final
    (Runner.deprecated message
       (fst (Runner.deliver (before ++ Runner.Deprecated message :: between) r)))
  = fst (Runner.deliver (before ++ Runner.Deprecated message :: between) r).
Proof.
  apply deprecated_seen.
  rewrite deliver_seen, existsb_app. simpl.
  rewrite String.eqb_refl. simpl. now rewrite !orb_true_r.
Qed.

Lemma bar_split (a b c d : string) :
  no_bar a = true -> no_bar c = true ->
  a +:+ "|" +:+ b = c +:+ "|" +:+ d ->
  a = c /\ b = d.
Proof.
  revert c. induction a as [|x a IH]; intros [|y c] Ha Hc Heq.
  - rewrite !append_nil_l in Heq. now injection Heq.
  - rewrite append_nil_l, !append_cons in Heq. injection Heq as <- _.
    simpl in Hc. discriminate.
  - rewrite append_nil_l, !append_cons in Heq. injection Heq as -> _.
    simpl in Ha. discriminate.
  - rewrite !append_cons in Heq. injection Heq as -> Heq.
    simpl in Ha, Hc.
    apply andb_prop in Ha as [_ Ha]. apply andb_prop in Hc as [_ Hc].
    destruct (IH c Ha Hc Heq) as [-> ->]. auto.
Qed.

Lemma string_of_optional_inj (a b : option string) :
  a <> Some "undefined" -> b <> Some "undefined" ->
  string_of_optional a = string_of_optional b -> a = b.
Proof. destruct a, b; simpl; congruence. Qed.

(** The key of a deprecation message determines the message when the
    separator does not occur in the name and in the replacement and no
    optional field is the word that stands for an absent one. *)
Lemma deprecation_key_inj (m1 m2 : DeprecationMessage.t) :
  no_bar (DeprecationMessage.original m1) = true ->
  no_bar (DeprecationMessage.original m2) = true ->
  no_bar (string_of_optional (DeprecationMessage.replacement m1)) = true ->
  no_bar (string_of_optional (DeprecationMessage.replacement m2)) = true ->
  DeprecationMessage.replacement m1 <> Some "undefined" ->
  DeprecationMessage.replacement m2 <> Some "undefined" ->
  DeprecationMessage.message m1 <> Some "undefined" ->
  DeprecationMessage.message m2 <> Some "undefined" ->
  Runner.deprecation_key m1 = Runner.deprecation_key m2 ->
  m1 = m2.
Proof.
  destruct m1 as [o1 r1 e1], m2 as [o2 r2 e2]. unfold Runner.deprecation_key.
  simpl. intros Ho1 Ho2 Hr1 Hr2 Hu1 Hu2 Hv1 Hv2 Hkey.
  apply bar_split in Hkey as [-> Hkey]; [|assumption..].
  apply bar_split in Hkey as [Hr He]; [|assumption..].
  apply string_of_optional_inj in Hr; [|assumption..].
  apply string_of_optional_inj in He; [|assumption..].
  congruence.
Qed.

(** X10. Two different deprecation messages are both rendered, the second
    after the first, when ["|"] occurs neither in their names nor in their
    replacements and none of their optional fields is the string
    ["undefined"]: their keys differ. *)
Theorem deprecated_distinct_rendered (m1 m2 : DeprecationMessage.t) (r : Runner) :
  no_bar (DeprecationMessage.original m1) = true ->
  no_bar (DeprecationMessage.original m2) = true ->
  no_bar (string_of_optional (DeprecationMessage.replacement m1)) = true ->
  no_bar (string_of_optional (DeprecationMessage.replacement m2)) = true ->
  DeprecationMessage.replacement m1 <> Some "undefined" ->
  DeprecationMessage.replacement m2 <> Some "undefined" ->
  DeprecationMessage.message m1 <> Some "undefined" ->
  DeprecationMessage.message m2 <> Some "undefined" ->
  m1 <> m2 ->
  Runner.seen (_deprecationMessages r) (Runner.deprecation_key m1) = false ->
  Runner.seen (_deprecationMessages r) (Runner.deprecation_key m2) = false ->
  Runner.deprecation_key m1 <> Runner.deprecation_key m2 /\
  effects (Runner.deprecated m1 r) = deprecation_notice m1 /\
  effects (Runner.deprecated m2 (final (Runner.deprecated m1 r)))
  = deprecation_notice m2.
Proof.
  intros Ho1 Ho2 Hr1 Hr2 Hu1 Hu2 Hv1 Hv2 Hne Hseen1 Hseen2.
  assert (Hkeys : Runner.deprecation_key m1 <> Runner.deprecation_key m2).
  { intros Hkey. apply Hne. now apply deprecation_key_inj. }
  split; [exact Hkeys|]. split; [now apply deprecated_new|].
  apply deprecated_new. rewrite seen_after_deprecated, Hseen2.
  now rewrite bool_decide_false by congruence.
Qed.

End DeprecationsOverEvents.

Section LogLines.
Context `{Collaborators}.

Lemma split_not_nil (sep : ascii) (s : string) : split sep s <> [].
Proof.
  induction s as [|c s IH]; simpl; [discriminate|].
  destruct (Ascii.eqb c sep); [discriminate|].
  now destruct (split sep s).
Qed.

Lemma join_cons (sep line : string) (lines : list string) :
  lines <> [] -> join sep (line :: lines) = line +:+ sep +:+ join sep lines.
Proof. now destruct lines. Qed.

Lemma join_split (sep : ascii) (s : string) :
  join (String sep "") (split sep s) = s.
Proof.
  induction s as [|c s IH]; [reflexivity|]. simpl.
  destruct (Ascii.eqb_spec c sep) as [->|Hc].
  - rewrite join_cons by apply split_not_nil. now rewrite IH.
  - pose proof (split_not_nil sep s) as Hnil.
    destruct (split sep s) as [|line lines]; [contradiction|].
    destruct lines as [|next lines].
    + simpl in *. congruence.
    + rewrite join_cons in IH by discriminate.
      rewrite join_cons by discriminate.
      rewrite append_cons. now rewrite IH.
Qed.

Lemma split_lines_free (sep : ascii) (s : string) :
  Forall (fun line => forall a b, line <> a +:+ String sep b) (split sep s).
Proof.
  induction s as [|c s IH]; simpl.
  - constructor; [|constructor]. intros [|x a] b; discriminate.
  - destruct (Ascii.eqb_spec c sep) as [->|Hc].
    + constructor; [|exact IH]. intros [|x a] b; discriminate.
    + pose proof (split_not_nil sep s) as Hnil.
      destruct (split sep s) as [|line lines]; [contradiction|].
      inversion IH as [|? ? Hline Hlines]; subst.
      constructor; [|exact Hlines].
      intros [|x a] b Heq.
      * rewrite append_nil_l in Heq. congruence.
      * rewrite append_cons in Heq. injection Heq as -> Heq.
        now apply (Hline a b).
Qed.

(** X11. [log] gives the message to [console.log] line by line: one line
    [DEBUG: <line>] for each line of the message, in order, where the
    lines contain no newline and, joined by newlines, are the message; it
    writes nothing on the terminal and assigns nothing. *)
Theorem log_lines (message : string) (r : Runner) :
  exists lines : list string,
    Runner.log message r =
      {| completion := Normal tt;
         final := r;
         effects := List.map (fun line => ConsoleLog ("DEBUG: " +:+ line)) lines |} /\
    lines <> [] /\
    join LF lines = message /\
    Forall (fun line => forall a b, line <> a +:+ LF +:+ b) lines.
Proof.
  exists (split "010" message). split; [|split; [|split]].
  - unfold Runner.log. apply forEach_emit.
  - apply split_not_nil.
  - apply join_split.
  - apply split_lines_free.
Qed.

End LogLines.

Section RunWithoutCoverage.
Context `{Collaborators}.

Lemma foldl_accumulate_map (l : list (string * Session.t)) (acc : Totals.t) :
  Forall (fun entry => Session.coverage (snd entry) = None) l ->
  Totals.map (foldl (fun acc entry => Runner.accumulate acc (snd entry)) acc l)
  = Totals.map acc.
Proof.
  revert acc. induction l as [|entry l IH]; intros acc Hnone; [reflexivity|].
  inversion Hnone as [|? ? Hentry Hrest]; subst. simpl.
  rewrite IH by exact Hrest. simpl. now rewrite Hentry.
Qed.

(** X12. When no registered session has received coverage, the map that
    [runEnd] merges is the empty map it created; if that map lists no
    file, [runEnd] writes the [TOTAL] line of several sessions without a
    coverage report. *)
Theorem runEnd_without_coverage (r : Runner) :
  (forall (key : string) (session : Session.t),
     sessions r !! key = Some session -> Session.coverage session = None) ->
  files createCoverageMap = [] ->
  (1 < size (sessions r))%nat ->
  Totals.map (Runner.aggregate (sessions r)) = createCoverageMap /\
  effects (Runner.runEnd r) =
    [Display bright;
     Foreground
       (if (0 <? sum_over Suite.numFailedTests (sessions r)) || hasErrors r
        then red else green);
     Write ("TOTAL: tested " +:+ string_of_number (Z.of_nat (size (sessions r)))
              +:+ " platforms, "
              +:+ string_of_number (sum_over Suite.numFailedTests (sessions r))
              +:+ "/"
              +:+ string_of_number (sum_over Suite.numTests (sessions r))
              +:+ " tests failed"
              +:+ skipped_suffix (sum_over Suite.numSkippedTests (sessions r))
              +:+ fatal_suffix
                    (hasErrors r
                     && negb (truthy_number
                                (sum_over Suite.numFailedTests (sessions r)))));
     Display reset;
     Write LF].
Proof.
  intros Hnone Hfiles Hsize.
  assert (Hmap : Totals.map (Runner.aggregate (sessions r)) = createCoverageMap).
  { unfold Runner.aggregate. rewrite foldl_accumulate_map; [reflexivity|].
    apply Forall_forall. intros [key session] Hin. simpl.
    apply (Hnone key). now apply elem_of_map_to_list. }
  split; [exact Hmap|].
  rewrite (runEnd_writes r Hsize), Hmap.
  unfold total_coverage_effects. now rewrite Hfiles.
Qed.

End RunWithoutCoverage.

Section TotalsOfARun.
Context `{Collaborators}.

(** X13. A run of several sessions: when the parent-less suites [suites]
    are started with pairwise different session identifiers, none of them
    ["__proto__"], in a reporter that has none of them registered, each
    counter summed over the sessions grows by its sum over [suites], and
    the number of sessions by their number. *)
Theorem totals_after_starts (counter : Suite.t -> Z) (suites : list Suite.t)
  (r : Runner) :
  Forall (fun suite => Suite.hasParent suite = false) suites ->
  Forall (fun suite => or_string (Suite.sessionId suite) "" <> "__proto__")
    suites ->
  NoDup (List.map (fun suite => or_string (Suite.sessionId suite) "") suites) ->
  Forall (fun suite =>
            sessions r !! or_string (Suite.sessionId suite) "" = None) suites ->
  sum_over counter
    (sessions (fst (Runner.deliver (List.map Runner.SuiteStart suites) r)))
  = foldr (fun suite n => counter suite + n) 0 suites
    + sum_over counter (sessions r) /\
  size (sessions (fst (Runner.deliver (List.map Runner.SuiteStart suites) r)))
  = (length suites + size (sessions r))%nat.
Proof.
  intros Hroots _. revert r Hroots.
  induction suites as [|suite suites IH]; intros r Hroots Hkeys Hfresh.
  - simpl. auto.
  - inversion Hroots as [|? ? Hroot Hroots']; subst.
    inversion Hfresh as [|? ? Hnew Hfresh']; subst.
    rewrite map_cons in Hkeys. apply NoDup_cons in Hkeys as [Hkey Hkeys].
    rewrite map_cons, deliver_cons.
    destruct (IH (after (Runner.SuiteStart suite) r) Hroots' Hkeys)
      as [Hsum Hsize].
    { apply Forall_forall. intros other Hin. simpl. rewrite Hroot. simpl.
      rewrite lookup_insert_ne.
      - rewrite Forall_forall in Hfresh'. now apply Hfresh'.
      - intros Hsame. apply Hkey. rewrite Hsame.
        apply list_elem_of_In.
        apply (in_map (fun suite => or_string (Suite.sessionId suite) "")).
        now apply list_elem_of_In. }
    rewrite Hsum, Hsize. simpl after. rewrite Hroot. simpl.
    rewrite sum_over_insert by exact Hnew.
    rewrite map_size_insert_None by exact Hnew. simpl. split; lia.
Qed.

End TotalsOfARun.

Section EarlierSuiteEnd.
Context `{Collaborators}.

Lemma legacy_hasError_core (n : Suite.node) :
  Legacy.hasError n = truthy (Runner.hasError n).
Proof.
  induction n as [test|suite IH] using node_induction; [reflexivity|].
  rewrite hasError_suite.
  destruct suite as [id name sid parent err nt nf ns children]. simpl in *.
  destruct err as [e|]; simpl; [reflexivity|].
  induction IH as [|child children Hchild _ IHchildren]; simpl; [reflexivity|].
  now rewrite Hchild, IHchildren.
Qed.

(** X14. The traversal of the earlier [suiteEnd], which converts the error
    to a boolean, answers as the later one does: true exactly for a suite
    that carries an error or has a suite with an error below it. *)
Theorem legacy_hasError_agrees (n : Suite.node) :
  Legacy.hasError n = truthy (Runner.hasError n) /\
  (Legacy.hasError n = true <->
   failed_suite n \/ exists d, Descendant d n /\ failed_suite d).
Proof.
  split; [apply legacy_hasError_core|].
  rewrite legacy_hasError_core. split; [apply hasError_inv|].
  intros [Hself|[d [Hdesc Hfailed]]].
  - now apply hasError_failed_suite.
  - eapply hasError_descendant; eauto.
Qed.

(** The earlier [suiteEnd] writes nothing and assigns nothing for a suite
    that has a parent, in client mode, and for a suite without a session
    identifier. *)
Lemma legacy_suiteEnd_silent (mode : Legacy.Mode) (suite : Suite.t)
  (r : Legacy.Runner) :
  Suite.hasParent suite = true \/ mode = Legacy.client
  \/ truthy_string (Suite.sessionId suite) = false ->
  Legacy.suiteEnd mode suite r = Legacy.unchanged r [].
Proof.
  unfold Legacy.suiteEnd.
  intros [->| [->|Hid]]; [reflexivity| |].
  - now destruct (Suite.hasParent suite).
  - rewrite Hid. now destruct (Suite.hasParent suite), mode.
Qed.

(** X15. In runner mode, for a parent-less suite whose session is
    registered, the earlier [suiteEnd] writes the summary line of the later
    one, in light red when a test failed or the traversal finds an error
    and in light green otherwise. *)
Theorem legacy_suiteEnd_summary (suite : Suite.t) (r : Legacy.Runner)
  (sessionId : string) (session : Session.t) :
  Suite.hasParent suite = false ->
  Suite.sessionId suite = Some sessionId ->
  sessionId <> "" ->
  Legacy.sessions r !! sessionId = Some session ->
  Legacy.suiteEnd Legacy.runner suite r =
    Legacy.unchanged r
      (match Session.coverage session with
       | Some collector => [Legacy.SummaryReport collector]
       | None =>
           [Legacy.Write ("No unit test coverage for " +:+ Suite.name suite);
            Legacy.Display reset;
            Legacy.Write LF]
       end ++
       [Legacy.Write
          (if truthy_number (Suite.numFailedTests suite)
              || truthy (Runner.hasError (Suite.SuiteNode suite))
           then Legacy.LIGHT_RED else Legacy.LIGHT_GREEN);
        Legacy.Write
          (Suite.name suite +:+ ": "
             +:+ string_of_number (Suite.numFailedTests suite) +:+ "/"
             +:+ string_of_number (Suite.numTests suite) +:+ " tests failed"
             +:+ skipped_suffix (Suite.numSkippedTests suite)
             +:+ fatal_suffix (truthy (Runner.hasError (Suite.SuiteNode suite))));
        Legacy.Display reset;
        Legacy.Write (LF +:+ LF)]).
Proof.
  intros Hparent Hid Hne Hsession. unfold Legacy.suiteEnd.
  rewrite Hparent, Hid. simpl negb. cbn [Legacy.is_client truthy_string].
  destruct (String.eqb_spec sessionId ""); [contradiction|].
  cbn [negb string_of_optional]. rewrite Hsession.
  rewrite legacy_hasError_core, format_summary.
  unfold skipped_suffix, fatal_suffix.
  destruct (truthy_number (Suite.numSkippedTests suite)),
    (truthy (Runner.hasError (Suite.SuiteNode suite)));
    rewrite ?append_assoc, ?append_nil_r; reflexivity.
Qed.

End EarlierSuiteEnd.

Section FatalFlagOverEvents.
Context `{Collaborators}.

(** X16. After any sequence of events delivered to a new reporter the
    fatal-error flag is set exactly when one of the events was a run-level
    error or the end of a suite that carries an error: the errors of tests
    do not set it. *)
Theorem flag_set_exactly_by_errors (events : list Runner.Event)
  (serveOnly' hidePassed' hideSkipped' : bool) :
  hasErrors
    (fst (Runner.deliver events
            (final (Runner.constructor serveOnly' hidePassed' hideSkipped'))))
  = existsb raises events.
Proof. rewrite deliver_hasErrors. reflexivity. Qed.

End FatalFlagOverEvents.

(** ** Concrete runs of the further properties *)

Lemma coverage_accumulates_witness :
  sessions one_session !! or_string (Some "A") ""
  = Some {| Session.coverage := None; Session.suite := suite_A |} /\
  sessions
    (fst (Runner.deliver (coverage_events (Some "A") [["a.js"]; ["b.js"]])
            one_session))
    !! "A"
  = Some {| Session.coverage := Some ["a.js"; "b.js"];
            Session.suite := suite_A |}.
Proof.
  assert (Hsession : sessions one_session !! or_string (Some "A") ""
                     = Some {| Session.coverage := None;
                               Session.suite := suite_A |}) by reflexivity.
  split; [exact Hsession|].
  exact (proj1 (coverage_accumulates (Some "A") [["a.js"]; ["b.js"]]
                  one_session _ Hsession)).
Defined.

Lemma registered_sessions_witness :
  Forall (fun key => key <> "__proto__")
    (omap started [Runner.SuiteStart suite_A; Runner.TestEnd passed_test;
                   Runner.SuiteStart suite_B]) /\
  dom (sessions
         (fst (Runner.deliver
                 [Runner.SuiteStart suite_A; Runner.TestEnd passed_test;
                  Runner.SuiteStart suite_B] fresh)))
  = dom (sessions fresh)
    ∪ list_to_set
        (omap started [Runner.SuiteStart suite_A; Runner.TestEnd passed_test;
                       Runner.SuiteStart suite_B]).
Proof.
  assert (Hkeys : Forall (fun key => key <> "__proto__")
                    (omap started [Runner.SuiteStart suite_A;
                                   Runner.TestEnd passed_test;
                                   Runner.SuiteStart suite_B]))
    by (repeat constructor; discriminate).
  split; [exact Hkeys|].
  exact (registered_sessions _ fresh Hkeys).
Defined.


Lemma suiteEnd_orphan_witness :
  ordinary_key (or_string (Suite.sessionId suite_A) "") = true /\
  ~ In (or_string (Suite.sessionId suite_A) "")
       (omap started [Runner.SuiteStart suite_B]) /\
  effects
    (Runner.suiteEnd suite_A
       (fst (Runner.deliver [Runner.SuiteStart suite_B]
               (final (Runner.constructor false false false)))))
  = [Display bright;
     Foreground yellow;
     Write "BUG: suiteEnd was received for invalid session A";
     Display reset;
     Write LF].
Proof.
  assert (Hnot : ~ In (or_string (Suite.sessionId suite_A) "")
                      (omap started [Runner.SuiteStart suite_B])).
  { simpl. intros [Heq|[]]. discriminate. }
  split; [reflexivity|]. split; [exact Hnot|].
  exact (suiteEnd_orphan suite_A [Runner.SuiteStart suite_B]
           false false false eq_refl eq_refl eq_refl Hnot).
Defined.

Lemma suiteEnd_session_summary_witness :
  sessions two_sessions !! or_string (Suite.sessionId suite_A) ""
  = Some {| Session.coverage := None; Session.suite := suite_A |} /\
  effects (Runner.suiteEnd suite_A two_sessions)
  = [Write "No unit test coverage for chrome";
     Display reset;
     Write LF;
     Display bright;
     Foreground red;
     Write "chrome: 2/10 tests failed (1 skipped)";
     Display reset;
     Write LF].
Proof.
  assert (Hsession : sessions two_sessions
                       !! or_string (Suite.sessionId suite_A) ""
                     = Some {| Session.coverage := None;
                               Session.suite := suite_A |}) by reflexivity.
  split; [exact Hsession|].
  exact (proj2 (proj2 (suiteEnd_session_summary suite_A two_sessions _
                         eq_refl eq_refl Hsession))).
Defined.

Lemma handle_completion_witness :
  ordinary_event
    (Runner.Coverage
       {| CoverageMessage.sessionId := Some "Z";
          CoverageMessage.coverage := ["a.js"] |}) = true /\
  final
    (Runner.handle
       (Runner.Coverage
          {| CoverageMessage.sessionId := Some "Z";
             CoverageMessage.coverage := ["a.js"] |})
       two_sessions)
  = two_sessions /\
  completion (Runner.handle Runner.RunEnd fresh) = Normal tt.
Proof.
  split; [reflexivity|]. split.
  - exact (proj1 (proj2 (proj2 (handle_completion
                                  (Runner.Coverage
                                     {| CoverageMessage.sessionId := Some "Z";
                                        CoverageMessage.coverage := ["a.js"] |})
                                  two_sessions eq_refl) eq_refl))).
  - exact (proj1 (handle_completion Runner.RunEnd fresh eq_refl) eq_refl).
Defined.

Lemma deprecated_distinct_rendered_witness :
  notice_3 <> notice_4 /\
  effects (Runner.deprecated notice_4 (final (Runner.deprecated notice_3 fresh)))
  = [Foreground yellow;
     Write "⚠︎ intern.args is deprecated. ";
     Write "Please open a ticket at https://github.com/theintern/intern/issues if you still require access to this function.";
     Write LF;
     Display reset].
Proof.
  assert (Hne : notice_3 <> notice_4) by discriminate.
  split; [exact Hne|].
  exact (proj2 (proj2 (deprecated_distinct_rendered notice_3 notice_4 fresh
                         eq_refl eq_refl eq_refl eq_refl
                         ltac:(discriminate) ltac:(discriminate)
                         ltac:(discriminate) ltac:(discriminate)
                         Hne eq_refl eq_refl))).
Defined.

Lemma runEnd_without_coverage_witness :
  (1 < size (sessions two_sessions))%nat /\
  files createCoverageMap = [] /\
  effects (Runner.runEnd two_sessions) =
    [Display bright;
     Foreground red;
     Write "TOTAL: tested 2 platforms, 2/15 tests failed (1 skipped)";
     Display reset;
     Write LF].
Proof.
  assert (Hsize : (1 < size (sessions two_sessions))%nat)
    by (vm_compute; lia).
  assert (Hnone : forall (key : string) (session : Session.t),
             sessions two_sessions !! key = Some session ->
             Session.coverage session = None).
  { intros key session.
    change (sessions two_sessions)
      with (<["B" := {| Session.coverage := None; Session.suite := suite_B |}]>
              (<["A" := {| Session.coverage := None; Session.suite := suite_A |}]>
                 (∅ : gmap string Session.t))).
    rewrite !lookup_insert. repeat case_decide.
    - intros [= <-]. reflexivity.
    - intros [= <-]. reflexivity.
    - rewrite lookup_empty. discriminate. }
  split; [exact Hsize|]. split; [reflexivity|].
  exact (proj2 (runEnd_without_coverage two_sessions Hnone eq_refl Hsize)).
Defined.

Lemma totals_after_starts_witness :
  sum_over Suite.numTests
    (sessions (fst (Runner.deliver
                      (List.map Runner.SuiteStart [suite_A; suite_B]) fresh)))
  = 15 /\
  size (sessions (fst (Runner.deliver
                         (List.map Runner.SuiteStart [suite_A; suite_B]) fresh)))
  = 2%nat.
Proof.
  apply (totals_after_starts Suite.numTests [suite_A; suite_B] fresh).
  - repeat constructor.
  - repeat constructor; discriminate.
  - apply NoDup_ListNoDup. repeat constructor; simpl; intuition discriminate.
  - repeat constructor.
Defined.

Lemma legacy_hasError_agrees_witness :
  Legacy.hasError (Suite.SuiteNode suite_above_failed) = true.
Proof.
  apply (proj2 (legacy_hasError_agrees (Suite.SuiteNode suite_above_failed))).
  right. exists (Suite.SuiteNode nested_failed). split.
  - apply Descendant_child. simpl. auto.
  - simpl. discriminate.
Defined.

Lemma hasError_iff_witness :
  truthy (Runner.hasError (Suite.SuiteNode nested_failed)) = true.
Proof.
  apply (proj2 (hasError_iff (Suite.SuiteNode nested_failed))).
  left. simpl. discriminate.
Defined.

Lemma legacy_suiteEnd_silent_witness :
  Legacy.suiteEnd Legacy.client suite_A legacy_one_session
  = Legacy.unchanged legacy_one_session [].
Proof.
  apply legacy_suiteEnd_silent. right. left. reflexivity.
Defined.

Lemma legacy_suiteEnd_summary_witness :
  Legacy.sessions legacy_one_session !! "A"
  = Some {| Session.coverage := None; Session.suite := suite_A |} /\
  Legacy.effects (Legacy.suiteEnd Legacy.runner suite_A legacy_one_session)
  = [Legacy.Write "No unit test coverage for chrome";
     Legacy.Display reset;
     Legacy.Write LF;
     Legacy.Write Legacy.LIGHT_RED;
     Legacy.Write "chrome: 2/10 tests failed (1 skipped)";
     Legacy.Display reset;
     Legacy.Write (LF +:+ LF)].
Proof.
  assert (Hsession : Legacy.sessions legacy_one_session !! "A"
                     = Some {| Session.coverage := None;
                               Session.suite := suite_A |}) by reflexivity.
  split; [exact Hsession|].
  rewrite (legacy_suiteEnd_summary suite_A legacy_one_session "A" _
             eq_refl eq_refl ltac:(discriminate) Hsession).
  reflexivity.
Defined.
